(** * Plantopia: the DEM-to-heightmap pipeline

    A shallow embedding of the raster pipeline found in
    - [backend/app.py] (Flask routes [process_dem], [cleanup] and the
      function [process_dem_to_heightmap]),
    - [Assets/StreamingAssets/Scripts/dem_processor.py],
    - [Assets/StreamingAssets/Scripts/dem_processor_alt.py],
    - [Assets/StreamingAssets/Scripts/utils/image_utils.py].

    Conventions.
    - Elevation samples are taken as numpy [float64] values, as in the
      data model of the specification.  Such a sample is a value of
      [float64] below: an exact rational, one of the two infinities, or
      NaN.  Finite arithmetic is exact (rounding is not modelled); the
      IEEE rules for NaN and the infinities are written out.
    - A 2-D array is a row-major [list (list _)].
    - A Python exception is the [Raise] branch of [result].
    - numpy, scipy and PIL are not part of the repository; the few
      primitives the pipeline calls are modelled from their documented
      behaviour in the modules [Np], [Ndimage], [Interpolate] and [PIL]. *)

From Stdlib Require Import QArith Qround Qabs Qminmax ZArith List Bool Lia Lqa.
From Stdlib Require Import Floats Uint63 Ascii String.
From stdpp Require Import gmap strings pretty.
Import ListNotations.

Local Open Scope Z_scope.

(* ================================================================== *)
(** ** Python results *)

Inductive exn : Type :=
| ValueError          (* numpy/scipy: zero-size reduction, no points given *)
| ZeroDivisionError   (* Python float division by zero *)
| QhullError          (* scipy.spatial: degenerate triangulation input *)
| FileNotFoundError   (* os.remove of a missing path, os.makedirs('') *)
| RasterioIOError     (* rasterio.open of a missing or undecodable file *)
| SystemExit (code : Z).

Inductive result (A : Type) : Type :=
| Ok (a : A)
| Raise (e : exn).

Arguments Ok {A} a.
Arguments Raise {A} e.

#[global] Instance result_ret : MRet result := fun _ a => Ok a.

#[global] Instance result_bind : MBind result := fun _ _ k r =>
  match r with
  | Ok a => k a
  | Raise e => Raise e
  end.

(** Python's true division of two integers. *)
Definition py_div (a : Z) (b : nat) : result Q :=
  match b with
  | O => Raise ZeroDivisionError
  | _ => Ok (inject_Z a / inject_Z (Z.of_nat b))%Q
  end.

(* ================================================================== *)
(** ** float64 samples *)

Inductive float64 : Type :=
| Fin (q : Q)
| PInf
| NInf
| NaN.

Definition grid : Type := list (list float64).

Module F.

Definition isnan (x : float64) : bool :=
  match x with NaN => true | _ => false end.

Definition isfinite (x : float64) : bool :=
  match x with Fin _ => true | _ => false end.

Definition isinf (x : float64) : bool :=
  match x with PInf | NInf => true | _ => false end.

(** The infinity (or NaN) selected by the sign of a finite factor. *)
Definition inf_of_sign (c : comparison) : float64 :=
  match c with Gt => PInf | Lt => NInf | Eq => NaN end.

Definition neg (x : float64) : float64 :=
  match x with
  | Fin q => Fin (- q)
  | PInf => NInf
  | NInf => PInf
  | NaN => NaN
  end.

Definition add (x y : float64) : float64 :=
  match x, y with
  | NaN, _ | _, NaN => NaN
  | Fin a, Fin b => Fin (a + b)
  | PInf, NInf | NInf, PInf => NaN
  | PInf, _ | _, PInf => PInf
  | NInf, _ | _, NInf => NInf
  end.

Definition sub (x y : float64) : float64 := add x (neg y).

Definition mul (x y : float64) : float64 :=
  match x, y with
  | NaN, _ | _, NaN => NaN
  | Fin a, Fin b => Fin (a * b)
  | Fin a, PInf | PInf, Fin a => inf_of_sign (a ?= 0)%Q
  | Fin a, NInf | NInf, Fin a => inf_of_sign (0 ?= a)%Q
  | PInf, PInf | NInf, NInf => PInf
  | PInf, NInf | NInf, PInf => NInf
  end.

(** Division; a zero divisor is taken as [+0.0]. *)
Definition div (x y : float64) : float64 :=
  match x, y with
  | NaN, _ | _, NaN => NaN
  | Fin a, Fin b =>
      if Qeq_bool b 0 then inf_of_sign (a ?= 0)%Q else Fin (a / b)
  | Fin _, (PInf | NInf) => Fin 0
  | PInf, Fin b => match (b ?= 0)%Q with Lt => NInf | _ => PInf end
  | NInf, Fin b => match (b ?= 0)%Q with Lt => PInf | _ => NInf end
  | (PInf | NInf), (PInf | NInf) => NaN
  end.

(** IEEE comparisons: every comparison with NaN is false. *)
Definition eqb (x y : float64) : bool :=
  match x, y with
  | Fin a, Fin b => Qeq_bool a b
  | PInf, PInf | NInf, NInf => true
  | _, _ => false
  end.

Definition ltb (x y : float64) : bool :=
  match x, y with
  | NaN, _ | _, NaN => false
  | Fin a, Fin b => match (a ?= b)%Q with Lt => true | _ => false end
  | NInf, (Fin _ | PInf) => true
  | Fin _, PInf => true
  | _, _ => false
  end.

Definition gtb (x y : float64) : bool := ltb y x.

(** Equality of samples up to the representation of a rational. *)
Definition equiv (x y : float64) : Prop :=
  match x, y with
  | Fin a, Fin b => (a == b)%Q
  | PInf, PInf | NInf, NInf | NaN, NaN => True
  | _, _ => False
  end.

(** A sample that is a rational in the closed unit interval. *)
Definition unit_interval (x : float64) : Prop :=
  match x with
  | Fin q => (0 <= q /\ q <= 1)%Q
  | _ => False
  end.

End F.

Definition of_Z (z : Z) : float64 := Fin (inject_Z z).
Definition of_nat (n : nat) : float64 := Fin (inject_Z (Z.of_nat n)).

(* ================================================================== *)
(** ** numpy primitives *)

Module Np.

(** [np.minimum] / [np.maximum]: NaN propagates. *)
Definition minimum (a b : float64) : float64 :=
  if F.isnan a then a
  else if F.isnan b then b
  else if F.ltb b a then b else a.

Definition maximum (a b : float64) : float64 :=
  if F.isnan a then a
  else if F.isnan b then b
  else if F.ltb a b then b else a.

Definition reduce (op : float64 -> float64 -> float64)
           (xs : list float64) : result float64 :=
  match xs with
  | [] => Raise ValueError
  | x :: r => Ok (fold_left op r x)
  end.

(** [np.min], [np.max] over all cells of a 2-D array. *)
Definition min (g : grid) : result float64 := reduce minimum (concat g).
Definition max (g : grid) : result float64 := reduce maximum (concat g).

Definition drop_nan (xs : list float64) : list float64 :=
  List.filter (fun x => negb (F.isnan x)) xs.

(** [np.nanmin], [np.nanmax]: NaN cells are skipped; an all-NaN array
    gives NaN (with a warning); an empty array raises. *)
Definition nanreduce (op : float64 -> float64 -> float64)
           (xs : list float64) : result float64 :=
  match xs with
  | [] => Raise ValueError
  | _ => match drop_nan xs with
         | [] => Ok NaN
         | x :: r => Ok (fold_left op r x)
         end
  end.

Definition nanmin (g : grid) : result float64 := nanreduce minimum (concat g).
Definition nanmax (g : grid) : result float64 := nanreduce maximum (concat g).

Definition sum (xs : list float64) : float64 := fold_left F.add xs (Fin 0).

(** [np.nanmean] of a 1-D array. *)
Definition nanmean (xs : list float64) : float64 :=
  match drop_nan xs with
  | [] => NaN
  | ys => F.div (sum ys) (of_nat (length ys))
  end.

(** Element-wise application, as numpy broadcasting of a scalar does. *)
Definition map2d {A B : Type} (f : A -> B) (g : list (list A)) : list (list B) :=
  map (map f) g.

Definition zeros_like (g : grid) : grid := map2d (fun _ => Fin 0) g.

(** [np.where(a == v, np.nan, a)]. *)
Definition where_eq_nan (v : float64) (g : grid) : grid :=
  map2d (fun x => if F.eqb x v then NaN else x) g.

Definition any_isnan (g : grid) : bool := existsb F.isnan (concat g).

(** The largest finite binary64 number, [(2^53 - 1) * 2^971]. *)
Definition float_max : Q := inject_Z ((2 ^ 53 - 1) * 2 ^ 971).

(** [np.nan_to_num(a, nan=0.0)]: NaN becomes [0.0]; the infinities
    become the largest and smallest finite numbers. *)
Definition nan_to_num (x : float64) : float64 :=
  match x with
  | NaN => Fin 0
  | PInf => Fin float_max
  | NInf => Fin (- float_max)
  | Fin q => Fin q
  end.

(** Truncation toward zero, the C conversion behind [astype]. *)
Definition Qtrunc (q : Q) : Z :=
  if Qlt_le_dec q 0 then Qceiling q else Qfloor q.

(** [a.astype(np.uintW)]: the fraction is discarded and the integer is
    reduced modulo [2^W].  The conversion of a non-finite value is
    platform-defined; it is taken as [0]. *)
Definition astype_uint (w : Z) (x : float64) : Z :=
  match x with
  | Fin q => Qtrunc q mod 2 ^ w
  | _ => 0
  end.

Definition astype_uint8 : float64 -> Z := astype_uint 8.
Definition astype_uint16 : float64 -> Z := astype_uint 16.

(** [np.round]: to the nearest integer, ties to the even one. *)
Definition round_half_even (q : Q) : Z :=
  let f := Qfloor q in
  match (q - inject_Z f ?= 1 # 2)%Q with
  | Lt => f
  | Gt => f + 1
  | Eq => if Z.even f then f else f + 1
  end.

End Np.

(* ================================================================== *)
(** ** scipy.ndimage.zoom, spline order 1

    [zoom(input, zoom, order=1)] with the defaults [mode='constant'],
    [cval=0.0], [grid_mode=False].  The output length along an axis is
    [round(len * zoom)]; output index [k] samples the input at
    coordinate [k * (len_in - 1) / (len_out - 1)] (ratio [1] when
    [len_out = 1]) and combines the two neighbouring cells with the
    order-1 spline weights [1 - t] and [t]. *)

Module Ndimage.

Definition output_len (n : nat) (zoom : Q) : nat :=
  Z.to_nat (Np.round_half_even (inject_Z (Z.of_nat n) * zoom)).

Definition zoom_ratio (n_in n_out : nat) : Q :=
  let d := Z.of_nat n_out - 1 in
  if d =? 0 then 1 else inject_Z (Z.of_nat n_in - 1) / inject_Z d.

(** A neighbour index that leaves [0 .. len-1] is reflected back. *)
Definition mirror (len idx : Z) : Z :=
  if len <=? 1 then 0
  else
    let s2 := 2 * len - 2 in
    if idx <? 0 then
      let i := s2 * Z.quot (- idx) s2 + idx in
      if i <=? 1 - len then i + s2 else - i
    else if len <=? idx then
      let i := idx - s2 * Z.quot idx s2 in
      if len <=? i then s2 - i else i
    else idx.

Record tap : Type := Tap { i0 : Z; i1 : Z; w0 : Q; w1 : Q }.

(** The input coordinate sampled by output index [k]. *)
Definition coordinate (n_in n_out k : nat) : Q :=
  (inject_Z (Z.of_nat k) * zoom_ratio n_in n_out)%Q.

(** The two neighbours and weights of output index [k]; [None] when
    the coordinate leaves the input (then [cval] is written). *)
Definition taps (n_in n_out k : nat) : option tap :=
  let len := Z.of_nat n_in in
  let cc := coordinate n_in n_out k in
  if Qlt_le_dec cc 0 then None
  else if Qlt_le_dec (inject_Z (len - 1)) cc then None
  else
    let start := Qfloor cc in
    let t := (cc - inject_Z start)%Q in
    Some (Tap (mirror len start) (mirror len (start + 1)) (1 - t)%Q t).

Definition cell (g : grid) (i j : Z) : float64 :=
  nth (Z.to_nat j) (nth (Z.to_nat i) g []) (Fin 0).

Definition weighted (g : grid) (i j : Z) (wy wx : Q) : float64 :=
  F.mul (F.mul (cell g i j) (Fin wy)) (Fin wx).

Definition sample (g : grid) (ty tx : option tap) : float64 :=
  match ty, tx with
  | Some y, Some x =>
      F.add (F.add (F.add (F.add (Fin 0)
        (weighted g (i0 y) (i0 x) (w0 y) (w0 x)))
        (weighted g (i0 y) (i1 x) (w0 y) (w1 x)))
        (weighted g (i1 y) (i0 x) (w1 y) (w0 x)))
        (weighted g (i1 y) (i1 x) (w1 y) (w1 x))
  | _, _ => Fin 0
  end.

Definition zoom (g : grid) (zf : Q * Q) : grid :=
  let h := length g in
  let w := length (hd [] g) in
  let oh := output_len h (fst zf) in
  let ow := output_len w (snd zf) in
  map (fun i => map (fun j => sample g (taps h oh i) (taps w ow j)) (seq 0 ow))
      (seq 0 oh).

End Ndimage.

(* ================================================================== *)
(** ** scipy.interpolate.griddata, method='linear'

    [griddata] triangulates the sample points (Delaunay) and evaluates
    the piecewise-linear interpolant at every query point; a query point
    outside every triangle receives [fill_value].  The triangulation is
    the library's own business: it is a parameter here, a function that
    either raises or yields the interpolant, [None] meaning "outside the
    hull".  An empty sample set is refused by the library before any
    triangulation is attempted. *)

Module Interpolate.

Definition point : Type := (nat * nat)%type.
Definition interpolant : Type := point -> option float64.
Definition triangulation : Type :=
  list point -> list float64 -> result interpolant.

Definition griddata (LinearNDInterpolator : triangulation)
           (points : list point) (values : list float64)
           (xi : list (list point)) (fill_value : float64) : result grid :=
  match points with
  | [] => Raise ValueError
  | _ =>
      ip ← LinearNDInterpolator points values;
      Ok (Np.map2d (fun p => default fill_value (ip p)) xi)
  end.

(** *** The interpolant of a sample set of exactly three points

    Three points that are not collinear have one triangulation, the
    triangle itself; the interpolant is the barycentric combination of
    the three values inside it.  Collinear or fewer points are a
    degenerate input.  Larger sets are outside this instance. *)

Definition zc (n : nat) : Q := inject_Z (Z.of_nat n).

Definition cross (a b c : point) : Q :=
  ((zc (fst b) - zc (fst a)) * (zc (snd c) - zc (snd a))
   - (zc (snd b) - zc (snd a)) * (zc (fst c) - zc (fst a)))%Q.

Definition nonneg (q : Q) : bool :=
  match (q ?= 0)%Q with Lt => false | _ => true end.

Definition barycentric (a b c : point) (va vb vc : float64) : interpolant :=
  fun p =>
    let d := cross a b c in
    let la := (cross p b c / d)%Q in
    let lb := (cross a p c / d)%Q in
    let lc := (cross a b p / d)%Q in
    if nonneg la && nonneg lb && nonneg lc then
      Some (F.add (F.add (F.mul (Fin la) va) (F.mul (Fin lb) vb))
                  (F.mul (Fin lc) vc))
    else None.

Definition single_triangle : triangulation :=
  fun points values =>
    match points, values with
    | [a; b; c], [va; vb; vc] =>
        if Qeq_bool (cross a b c) 0 then Raise QhullError
        else Ok (barycentric a b c va vb vc)
    | _, _ => Raise QhullError
    end.

End Interpolate.

(* ================================================================== *)
(** ** PIL images *)

Module PIL.

(** Mode ['L']: one unsigned byte per pixel. *)
Definition image_L : Type := list (list Byte.byte).

(** Mode ['I;16']: one unsigned 16-bit integer per pixel. *)
Definition image_I16 : Type := list (list Z).

Inductive resampling : Type :=
| NEAREST | BOX | BILINEAR | HAMMING | BICUBIC | LANCZOS.

(** [Image.resize(size, resample)], an operation of the library. *)
Definition resizer : Type := image_L -> Z * Z -> resampling -> image_L.

Definition byte_of_Z (z : Z) : Byte.byte :=
  default Byte.x00 (Byte.of_N (Z.to_N z)).

Definition Z_of_byte (b : Byte.byte) : Z := Z.of_N (Byte.to_N b).

(** [Image.fromarray(a, mode='L')] for a [uint8] array. *)
Definition fromarray_L (a : list (list Z)) : image_L :=
  Np.map2d byte_of_Z a.

(** [np.array(image)] for a mode ['L'] image. *)
Definition to_array (im : image_L) : list (list Z) :=
  Np.map2d Z_of_byte im.

End PIL.

(* ================================================================== *)
(** ** Files and the operating system

    The transient store is a finite map from paths to files.  Every
    access to it is recorded in a trace, so that "nothing was touched"
    is a statement about the trace. *)

Record raster : Type := Raster {
  data : grid;                (* band 1 *)
  nodata : option float64     (* the declared no-data value, if any *)
}.

Inductive file : Type :=
| GeoTIFF (r : raster)
| PNG16 (px : PIL.image_I16)
| Blob.

Inductive fs_op : Type :=
| FsExists (p : string)
| FsOpen (p : string)
| FsRemove (p : string)
| FsMakedirs (p : string)
| FsWrite (p : string).

Record world : Type := World {
  files : gmap string file;
  trace : list fs_op
}.

Definition io (A : Type) : Type := world -> result A * world.

Module Os.

Definition log (op : fs_op) (w : world) : world :=
  World (files w) (trace w ++ [op]).

(** [os.path.join(a, b)] for a relative [b]. *)
Definition path_join (a b : string) : string := a +:+ "/" +:+ b.

Definition path_exists (p : string) : io bool :=
  fun w => (Ok (bool_decide (is_Some (files w !! p))), log (FsExists p) w).

Definition remove (p : string) : io unit :=
  fun w =>
    match files w !! p with
    | Some _ => (Ok tt, World (delete p (files w)) (trace w ++ [FsRemove p]))
    | None => (Raise FileNotFoundError, log (FsRemove p) w)
    end.

(** [os.makedirs(p, exist_ok=True)]; the empty path is refused. *)
Definition makedirs (p : string) : io unit :=
  fun w =>
    match p with
    | EmptyString => (Raise FileNotFoundError, log (FsMakedirs p) w)
    | _ => (Ok tt, log (FsMakedirs p) w)
    end.

(** [image.save(path)]. *)
Definition save (p : string) (im : PIL.image_I16) : io unit :=
  fun w => (Ok tt, World (<[p := PNG16 im]> (files w)) (trace w ++ [FsWrite p])).

(** [rasterio.open(path)] followed by [read(1)] and [nodata];
    a missing or undecodable file raises. *)
Definition rasterio_open (p : string) : io raster :=
  fun w =>
    match files w !! p with
    | Some (GeoTIFF r) => (Ok r, log (FsOpen p) w)
    | _ => (Raise RasterioIOError, log (FsOpen p) w)
    end.

(** [gdal.Open(path)]: [None] when the file cannot be opened.  The
    scripts that use GDAL never look at the no-data value. *)
Definition gdal_Open (p : string) : io (option grid) :=
  fun w =>
    match files w !! p with
    | Some (GeoTIFF r) => (Ok (Some (data r)), log (FsOpen p) w)
    | _ => (Ok None, log (FsOpen p) w)
    end.

Definition is_slash (c : ascii) : bool := Ascii.eqb c "/"%char.

Fixpoint drop_while (f : ascii -> bool) (cs : list ascii) : list ascii :=
  match cs with
  | [] => []
  | c :: rest => if f c then drop_while f rest else cs
  end.

(** [os.path.dirname]: everything up to the last slash, without the
    trailing slashes unless there is nothing else. *)
Definition dirname (p : string) : string :=
  let head :=
    rev (drop_while (fun c => negb (is_slash c))
           (rev (list_ascii_of_string p))) in
  if forallb is_slash head then string_of_list_ascii head
  else string_of_list_ascii (rev (drop_while is_slash (rev head))).

End Os.

(** [s.replace(old, new)] for a non-empty [old]. *)
Fixpoint str_replace_fuel (fuel : nat) (old new s : string) : string :=
  match fuel with
  | O => s
  | S fuel' =>
      if String.prefix old s then
        new +:+ str_replace_fuel fuel' old new
                  (String.substring (String.length old)
                     (String.length s - String.length old) s)
      else
        match s with
        | EmptyString => EmptyString
        | String c r => String c (str_replace_fuel fuel' old new r)
        end
  end.

Definition str_replace (old new s : string) : string :=
  str_replace_fuel (S (String.length s)) old new s.

(* ================================================================== *)
(** ** Assets/StreamingAssets/Scripts/utils/image_utils.py *)

Module ImageUtils.


(** [resize_heightmap(heightmap, target_size)], with
    [target_size = (width, height)]. *)
Definition resize_heightmap (heightmap : grid) (target_size : Z * Z)
  : result grid :=
  zy ← py_div (snd target_size) (length heightmap);
  zx ← py_div (fst target_size) (length (hd [] heightmap));
  Ok (Ndimage.zoom heightmap (zy, zx)).

(** The array written by [save_heightmap_16bit]. *)
Definition heightmap_16bit (heightmap : grid) : PIL.image_I16 :=
  Np.map2d (fun x => Np.astype_uint16 (F.mul x (of_Z 65535))) heightmap.

(** The array written by [save_heightmap_8bit]. *)
Definition heightmap_8bit (heightmap : grid) : list (list Z) :=
  Np.map2d (fun x => Np.astype_uint8 (F.mul x (of_Z 255))) heightmap.

End ImageUtils.

(* ================================================================== *)
(** ** Assets/StreamingAssets/Scripts/dem_processor.py *)

Module DemProcessor.

(** Lines 44-51: normalisation to the range 0-1. *)
Definition normalize (elevation_data : grid) : result grid :=
  min_elev ← Np.min elevation_data;
  max_elev ← Np.max elevation_data;
  if F.eqb max_elev min_elev then Ok (Np.zeros_like elevation_data)
  else
    Ok (Np.map2d (fun x => F.div (F.sub x min_elev) (F.sub max_elev min_elev))
          elevation_data).

(** Lines 53-56: resize to the target resolution.  The zoom factors
    come from the shape of [elevation_data]. *)
Definition resize (elevation_data normalized : grid) (resolution : Z)
  : result grid :=
  zy ← py_div resolution (length elevation_data);
  zx ← py_div resolution (length (hd [] elevation_data));
  Ok (Ndimage.zoom normalized (zy, zx)).

(** Lines 58-59: conversion to a 16-bit grayscale array. *)
Definition to_uint16 (x : float64) : Z :=
  Np.astype_uint16 (F.mul x (of_Z 65535)).

(** Lines 37-59, from the band that was read to the pixel array. *)
Definition heightmap_of (elevation_data : grid) (resolution : Z)
  : result PIL.image_I16 :=
  normalized ← normalize elevation_data;
  resized ← resize elevation_data normalized resolution;
  Ok (Np.map2d to_uint16 resized).

Definition process_dem_to_heightmap (dem_path output_path : string)
           (resolution : Z) : io string :=
  fun w =>
    match Os.gdal_Open dem_path w with
    | (Ok None, w1) => (Raise (SystemExit 1), w1)
    | (Ok (Some elevation_data), w1) =>
        match heightmap_of elevation_data resolution with
        | Raise e => (Raise e, w1)
        | Ok heightmap =>
            match Os.makedirs (Os.dirname output_path) w1 with
            | (Raise e, w2) => (Raise e, w2)
            | (Ok _, w2) =>
                let (_, w3) := Os.save output_path heightmap w2 in
                (Ok output_path, w3)
            end
        end
    | (Raise e, w1) => (Raise e, w1)
    end.

End DemProcessor.

(* ================================================================== *)
(** ** Assets/StreamingAssets/Scripts/dem_processor_alt.py *)

Module DemProcessorAlt.

(** The pixel array of [process_dem_with_gdal], which repeats
    dem_processor.py line for line. *)
Definition process_dem_with_gdal : grid -> Z -> result PIL.image_I16 :=
  DemProcessor.heightmap_of.

(** [process_dem_with_rasterio], lines 83-86: no-data cells become NaN. *)
Definition mark_nodata (r : raster) : grid :=
  match nodata r with
  | Some v => Np.where_eq_nan v (data r)
  | None => data r
  end.

(** Lines 88-98: normalisation, then NaN replaced by 0. *)
Definition normalize (elevation_data : grid) : result grid :=
  min_elev ← Np.nanmin elevation_data;
  max_elev ← Np.nanmax elevation_data;
  normalized ←
    (if F.eqb max_elev min_elev then Ok (Np.zeros_like elevation_data)
     else
       Ok (Np.map2d
             (fun x => F.div (F.sub x min_elev) (F.sub max_elev min_elev))
             elevation_data));
  Ok (Np.map2d Np.nan_to_num normalized).

(** The pixel array of [process_dem_with_rasterio]. *)
Definition process_dem_with_rasterio (r : raster) (resolution : Z)
  : result PIL.image_I16 :=
  let elevation_data := mark_nodata r in
  normalized ← normalize elevation_data;
  resized ← DemProcessor.resize elevation_data normalized resolution;
  Ok (Np.map2d DemProcessor.to_uint16 resized).

End DemProcessorAlt.

(* ================================================================== *)
(** ** backend/app.py *)

Module Backend.

Definition UPLOAD_FOLDER : string := "temp".

Definition supported_resolutions : list Z := [129; 257; 513; 1025; 2049; 4097].

(** *** The pipeline of [process_dem_to_heightmap] *)

(** Lines 250-256. *)
Definition mark_nodata (r : raster) : grid :=
  match nodata r with
  | Some v => Np.where_eq_nan v (data r)
  | None => data r
  end.

(** [coords] and [values] of lines 260-262: the cells that are not
    NaN, in row-major order. *)
Fixpoint known_row (i j : nat) (row : list float64)
  : list (Interpolate.point * float64) :=
  match row with
  | [] => []
  | x :: rest =>
      (if F.isnan x then [] else [((i, j), x)]) ++ known_row i (S j) rest
  end.

Fixpoint known_from (i : nat) (elevation_data : grid)
  : list (Interpolate.point * float64) :=
  match elevation_data with
  | [] => []
  | row :: rest => known_row i 0 row ++ known_from (S i) rest
  end.

Definition known (elevation_data : grid)
  : list (Interpolate.point * float64) :=
  known_from 0 elevation_data.

(** [np.mgrid[0:H, 0:W]] of line 265. *)
Definition mgrid (h w : nat) : list (list Interpolate.point) :=
  map (fun i => map (fun j => (i, j)) (seq 0 w)) (seq 0 h).

(** The [fill_value] expression of line 272. *)
Definition fill_value (values : list float64) : float64 :=
  if (0 <? length values)%nat then Np.nanmean values else of_Z 0.

(** Lines 258-273. *)
Definition fill_gaps (tri : Interpolate.triangulation) (elevation_data : grid)
  : result grid :=
  if Np.any_isnan elevation_data then
    let coords := map fst (known elevation_data) in
    let values := map snd (known elevation_data) in
    Interpolate.griddata tri coords values
      (mgrid (length elevation_data) (length (hd [] elevation_data)))
      (fill_value values)
  else Ok elevation_data.

(** Lines 275-282. *)
Definition normalize (elevation_data : grid) : result grid :=
  min_elevation ← Np.nanmin elevation_data;
  max_elevation ← Np.nanmax elevation_data;
  if F.gtb max_elevation min_elevation then
    Ok (Np.map2d
          (fun x => F.div (F.sub x min_elevation)
                          (F.sub max_elevation min_elevation))
          elevation_data)
  else Ok (Np.zeros_like elevation_data).

(** Line 285: the 8-bit image handed to PIL. *)
Definition to_uint8 (x : float64) : Z :=
  Np.astype_uint8 (F.mul x (of_Z 255)).

Definition image_of (normalized : grid) : PIL.image_L :=
  PIL.fromarray_L (Np.map2d to_uint8 normalized).

(** Line 286: the filter handed to [Image.resize]. *)
Definition resample_filter : PIL.resampling := PIL.LANCZOS.

(** Line 289: [np.array(image) / 255.0 * 65535] cast to [uint16]. *)
Definition to_16bit (px : Z) : Z :=
  Np.astype_uint16 (F.mul (F.div (of_Z px) (of_Z 255)) (of_Z 65535)).

Definition image_16bit (image : PIL.image_L) : PIL.image_I16 :=
  Np.map2d to_16bit (PIL.to_array image).

Definition heightmap_of (tri : Interpolate.triangulation)
           (resize : PIL.resizer) (r : raster) (resolution : Z)
  : result PIL.image_I16 :=
  elevation_data ← fill_gaps tri (mark_nodata r);
  normalized ← normalize elevation_data;
  let image := resize (image_of normalized) (resolution, resolution)
                      resample_filter in
  Ok (image_16bit image).

Definition process_dem_to_heightmap (tri : Interpolate.triangulation)
           (resize : PIL.resizer) (dem_path : string) (resolution : Z)
  : io string :=
  fun w =>
    match Os.rasterio_open dem_path w with
    | (Raise e, w1) => (Raise e, w1)
    | (Ok r, w1) =>
        match heightmap_of tri resize r resolution with
        | Raise e => (Raise e, w1)
        | Ok image =>
            let output_path := str_replace ".tif" "_heightmap.png" dem_path in
            let (_, w2) := Os.save output_path image w1 in
            (Ok output_path, w2)
        end
    end.

(** *** Flask routes *)

Inductive payload : Type :=
| JsonError (error : string)
| JsonException (e : exn)
| JsonCleanup (message : string) (deleted : list string)
| Attachment (path download_name : string).

Record response : Type := Response { status : Z; body : payload }.

(** Python truthiness of the [file_id] field. *)
Definition truthy (s : option string) : bool :=
  match s with
  | Some (String _ _) => true
  | _ => false
  end.

Record process_request : Type := ProcessRequest {
  pr_file_id : option string;
  pr_resolution : option Z
}.

(** [process_dem], lines 206-238. *)
Definition process_dem (tri : Interpolate.triangulation)
           (resize : PIL.resizer) (req : process_request)
  : world -> response * world :=
  fun w =>
    let file_id := pr_file_id req in
    let resolution := default 513 (pr_resolution req) in
    if negb (truthy file_id) then
      (Response 400 (JsonError "file_id is required"), w)
    else if negb (existsb (Z.eqb resolution) supported_resolutions) then
      (Response 400 (JsonError "Invalid resolution. Must be 2^n + 1"), w)
    else
      let fid := default "" file_id in
      let dem_path := Os.path_join UPLOAD_FOLDER ("dem_" +:+ fid +:+ ".tif") in
      match Os.path_exists dem_path w with
      | (Ok false, w1) =>
          (Response 404 (JsonError ("DEM file not found: " +:+ fid)), w1)
      | (Ok true, w1) =>
          match process_dem_to_heightmap tri resize dem_path resolution w1 with
          | (Ok heightmap_path, w2) =>
              (Response 200
                 (Attachment heightmap_path ("heightmap_" +:+ fid +:+ ".png")),
               w2)
          | (Raise e, w2) => (Response 500 (JsonException e), w2)
          end
      | (Raise e, w1) => (Response 500 (JsonException e), w1)
      end.

(** The loop body of [cleanup], lines 372-377. *)
Definition cleanup_step (acc : result (list string) * world) (pattern : string)
  : result (list string) * world :=
  match acc with
  | (Raise e, w) => (Raise e, w)
  | (Ok deleted, w) =>
      let file_path := Os.path_join UPLOAD_FOLDER pattern in
      match Os.path_exists file_path w with
      | (Ok true, w1) =>
          match Os.remove file_path w1 with
          | (Ok _, w2) => (Ok (deleted ++ [pattern]), w2)
          | (Raise e, w2) => (Raise e, w2)
          end
      | (Ok false, w1) => (Ok deleted, w1)
      | (Raise e, w1) => (Raise e, w1)
      end
  end.

Definition nat_str (n : nat) : string := pretty.pretty n.

(** [cleanup], lines 358-386. *)
Definition cleanup (file_id : option string) : world -> response * world :=
  fun w =>
    if negb (truthy file_id) then
      (Response 400 (JsonError "file_id is required"), w)
    else
      let fid := default "" file_id in
      let patterns :=
        ["dem_" +:+ fid +:+ ".tif"; "dem_" +:+ fid +:+ "_heightmap.png"] in
      match fold_left cleanup_step patterns (Ok [], w) with
      | (Ok deleted, w') =>
          (Response 200
             (JsonCleanup
                ("Cleaned up " +:+ nat_str (length deleted) +:+ " file(s)")
                deleted),
           w')
      | (Raise e, w') => (Response 500 (JsonException e), w')
      end.

End Backend.

(* ================================================================== *)
(** ** The same arithmetic in IEEE binary64

    The rescaling of line 289 of app.py, evaluated with the machine's
    binary64 operations instead of exact rationals. *)

Module Binary64.

(** The integer part of a binary64 number. *)
Definition trunc (x : float) : Z :=
  match Prim2SF x with
  | S754_finite s m e =>
      let a := if 0 <=? e then Z.pos m * 2 ^ e else Z.pos m / 2 ^ (- e) in
      if s then - a else a
  | _ => 0
  end.

Definition to_16bit (px : Z) : Z :=
  trunc (PrimFloat.mul
           (PrimFloat.div (PrimFloat.of_uint63 (Uint63.of_Z px)) 255%float)
           65535%float)
  mod 2 ^ 16.

End Binary64.

(* ================================================================== *)
(** ** The specification's wording

    Definitions that follow the text of the specification, to be
    compared with the code above. *)

Module Spec.



Definition finite_part (xs : list float64) : list Q :=
  flat_map (fun x => match x with Fin a => [a] | _ => [] end) xs.

Definition finite_cells (g : grid) : list Q := finite_part (concat g).

Definition extremum (op : Q -> Q -> Q) (xs : list Q) : option Q :=
  match xs with
  | [] => None
  | x :: r => Some (fold_left op r x)
  end.

(** Section 4.2: min and max over the finite cells; the affine
    rescaling when [max > min], zero when [max = min]; every cell that
    is not finite becomes [0.0]. *)
Definition normalizer (g : grid) : grid :=
  match extremum Qmin (finite_cells g), extremum Qmax (finite_cells g) with
  | Some mn, Some mx =>
      Np.map2d
        (fun x =>
           match x with
           | Fin a =>
               if Qlt_le_dec mn mx then Fin ((a - mn) / (mx - mn)) else Fin 0
           | _ => Fin 0
           end) g
  | _, _ => Np.zeros_like g
  end.


Definition is_minimum (mn : Q) (g : grid) : Prop :=
  In (Fin mn) (concat g) /\
  forall a, In (Fin a) (concat g) -> (mn <= a)%Q.

Definition is_maximum (mx : Q) (g : grid) : Prop :=
  In (Fin mx) (concat g) /\
  forall a, In (Fin a) (concat g) -> (a <= mx)%Q.

Definition qcell (g : grid) (i j : Z) : Q :=
  match Ndimage.cell g i j with
  | Fin a => a
  | _ => 0
  end.

(** Section 4.3: bilinear interpolation of a grid at the fractional
    position [(y, x)]; a neighbour past the last row or column is the
    last row or column. *)
Definition bilinear (g : grid) (y x : Q) : Q :=
  let h := Z.of_nat (length g) in
  let w := Z.of_nat (length (hd [] g)) in
  let y0 := Qfloor y in
  let x0 := Qfloor x in
  let y1 := Z.min (y0 + 1) (h - 1) in
  let x1 := Z.min (x0 + 1) (w - 1) in
  let ty := (y - inject_Z y0)%Q in
  let tx := (x - inject_Z x0)%Q in
  ((1 - ty) * ((1 - tx) * qcell g y0 x0 + tx * qcell g y0 x1)
   + ty * ((1 - tx) * qcell g y1 x0 + tx * qcell g y1 x1))%Q.







End Spec.

(** Shape and content predicates on grids. *)

Definition grid_finite (g : grid) : Prop :=
  Forall (Forall (fun x => F.isfinite x = true)) g.

Definition grid_no_inf (g : grid) : Prop :=
  Forall (Forall (fun x => F.isinf x = false)) g.

Definition has_shape {A : Type} (h w : nat) (g : list (list A)) : Prop :=
  length g = h /\ Forall (fun row => length row = w) g.

Definition multiple_of_257 (px : Z) : Prop :=
  exists k, 0 <= k <= 255 /\ px = 257 * k.

(* ================================================================== *)
(** ** Sample inputs *)

Module Examples.

(** A 2x2 raster without a declared no-data value. *)
Definition small : raster :=
  Raster [[of_Z 1; of_Z 2]; [of_Z 3; of_Z 4]] None.

(** A 2x2 band with one missing (NaN) cell. *)
Definition gappy : grid :=
  [[of_Z 100; of_Z 150]; [NaN; of_Z 250]].

(** A raster in which every cell is the no-data value. *)
Definition void : raster :=
  Raster [[of_Z (-9999); of_Z (-9999)]; [of_Z (-9999); of_Z (-9999)]]
         (Some (of_Z (-9999))).

(** A raster whose no-data value is 0 and whose three known cells
    have mean 0. *)
Definition balanced : raster :=
  Raster [[of_Z (-2); of_Z 1]; [of_Z 1; of_Z 0]] (Some (of_Z 0)).

(** A 2x2 normalised grid that rises from left to right. *)
Definition ramp : grid := [[of_Z 0; of_Z 1]; [of_Z 0; of_Z 1]].

(** A resizer to run the backend with: nearest-neighbour sampling,
    whatever filter is asked for. *)
Definition nearest_index (k : nat) (n_in : nat) (n_out : Z) : nat :=
  Z.to_nat ((2 * Z.of_nat k + 1) * Z.of_nat n_in / (2 * n_out)).

Definition nearest : PIL.resizer :=
  fun im size _ =>
    let h := length im in
    let w := length (hd [] im) in
    map (fun i =>
           map (fun j =>
                  nth (nearest_index j w (fst size))
                      (nth (nearest_index i h (snd size)) im [])
                      Byte.x00)
               (seq 0 (Z.to_nat (fst size))))
        (seq 0 (Z.to_nat (snd size))).

(** A store that holds [small] under the file id ["x"], with its
    heightmap. *)
Definition store : world :=
  World {[ "temp/dem_x.tif" := GeoTIFF small;
           "temp/dem_x_heightmap.png" := Blob ]} [].

End Examples.

(* ================================================================== *)
(** ** backend/app.py: the other routes *)

Module Routes.

Definition ALLOWED_EXTENSIONS : list string := ["tif"; "tiff"].

Definition is_dot (c : ascii) : bool := Ascii.eqb c "."%char.

(** ['.' in s]. *)
Fixpoint contains_dot (s : string) : bool :=
  match s with
  | EmptyString => false
  | String c r => is_dot c || contains_dot r
  end.

(** The two parts of [s.rsplit('.', 1)] when [s] has a dot. *)
Fixpoint rsplit_dot (s : string) : option (string * string) :=
  match s with
  | EmptyString => None
  | String c r =>
      match rsplit_dot r with
      | Some (h, t) => Some (String c h, t)
      | None => if is_dot c then Some (EmptyString, r) else None
      end
  end.

(** [s.rsplit('.', 1)]. *)
Definition rsplit1 (s : string) : list string :=
  match rsplit_dot s with
  | Some (h, t) => [h; t]
  | None => [s]
  end.

(** [str.lower] on the letters A-Z; a file name is a string of bytes,
    and no character outside A-Z lowers to one of [t], [i], [f]. *)
Definition lower_char (c : ascii) : ascii :=
  let n := nat_of_ascii c in
  if (65 <=? n)%nat && (n <=? 90)%nat then ascii_of_nat (n + 32) else c.

Fixpoint lower (s : string) : string :=
  match s with
  | EmptyString => EmptyString
  | String c r => String (lower_char c) (lower r)
  end.

(** [allowed_file], lines 45-46. *)
Definition allowed_file (filename : string) : bool :=
  contains_dot filename
  && existsb (String.eqb (lower (nth 1 (rsplit1 filename) "")))
             ALLOWED_EXTENSIONS.

(** *** [process_dem_info], lines 312-348 *)

(** What rasterio reports besides the band: [src.bounds] and [src.crs]. *)
Record georef : Type := Georef {
  bounds : Q * Q * Q * Q;     (* left, bottom, right, top *)
  crs : string
}.

Inductive info_payload : Type :=
| InfoError (error : string)
| InfoException (e : exn)
| Info (min_elevation max_elevation : float64) (size : list nat)
       (bounds : Q * Q * Q * Q) (crs : string).

Record info_response : Type :=
  InfoResponse { info_status : Z; info_body : info_payload }.

Definition process_dem_info (src_georef : raster -> georef)
           (file_id : option string) : world -> info_response * world :=
  fun w =>
    if negb (Backend.truthy file_id) then
      (InfoResponse 400 (InfoError "file_id is required"), w)
    else
      let fid := default "" file_id in
      let dem_path :=
        Os.path_join Backend.UPLOAD_FOLDER ("dem_" +:+ fid +:+ ".tif") in
      match Os.path_exists dem_path w with
      | (Ok false, w1) =>
          (InfoResponse 404 (InfoError ("DEM file not found: " +:+ fid)), w1)
      | (Ok true, w1) =>
          match Os.rasterio_open dem_path w1 with
          | (Raise e, w2) => (InfoResponse 500 (InfoException e), w2)
          | (Ok src, w2) =>
              let elevation_data := Backend.mark_nodata src in
              match Np.nanmin elevation_data, Np.nanmax elevation_data with
              | Ok min_elev, Ok max_elev =>
                  (InfoResponse 200
                     (Info min_elev max_elev
                           [length elevation_data;
                            length (hd [] elevation_data)]
                           (bounds (src_georef src)) (crs (src_georef src))),
                   w2)
              | Raise e, _ | _, Raise e =>
                  (InfoResponse 500 (InfoException e), w2)
              end
          end
      | (Raise e, w1) => (InfoResponse 500 (InfoException e), w1)
      end.

(** *** [download_dem], lines 123-192 *)

Record download_request : Type := DownloadRequest {
  latitude : option float64;
  longitude : option float64;
  radius_km : option float64;
  dem_type : option string;
  api_key : option string
}.

(** The query sent to OpenTopography. *)
Record opentopo_params : Type := OpenTopoParams {
  demtype : string;
  south : float64;
  north : float64;
  west : float64;
  east : float64;
  outputFormat : string;
  API_Key : string
}.

(** The body of a successful upstream answer: what the bytes decode to
    and how many they are. *)
Record upstream_content : Type := UpstreamContent {
  content : file;
  content_length : nat
}.

(** [requests.get] followed by [raise_for_status]; [None] stands for a
    [requests.RequestException]. *)
Definition opentopo : Type := opentopo_params -> option upstream_content.

Inductive download_payload : Type :=
| DownloadError (error : string)
| Downloaded (file_id : string) (message : string) (size_bytes : nat)
             (bbox_south bbox_north bbox_west bbox_east : float64).

Record download_response : Type :=
  DownloadResponse { download_status : Z; download_body : download_payload }.

(** [a or b] on strings, the second possibly absent. *)
Definition str_or (a : string) (b : option string) : option string :=
  match a with
  | EmptyString => b
  | _ => Some a
  end.

(** [open(path, 'wb')] and [write]. *)
Definition write_file (p : string) (f : file) : io unit :=
  fun w => (Ok tt, World (<[p := f]> (files w)) (trace w ++ [FsWrite p])).

(** [download_dem].  [OPENTOPO_API_KEY] is the key read from the
    environment, [cos_deg] is [np.cos(np.radians(_))], [get] is the
    upstream service and [uuid4] the identifier drawn for this call.
    The result lists the upstream requests that were made. *)
Definition download_dem (OPENTOPO_API_KEY : string)
           (cos_deg : float64 -> float64) (get : opentopo) (uuid4 : string)
           (data : download_request)
  : world -> download_response * world * list opentopo_params :=
  fun w =>
    match latitude data, longitude data with
    | Some lat, Some lon =>
        let radius := default (of_Z 10) (radius_km data) in
        let dem := default "SRTMGL1" (dem_type data) in
        let lat_offset := F.div radius (of_Z 111) in
        let lon_offset := F.div radius (F.mul (of_Z 111) (cos_deg lat)) in
        let s := F.sub lat lat_offset in
        let n := F.add lat lat_offset in
        let wst := F.sub lon lon_offset in
        let e := F.add lon lon_offset in
        if negb (Backend.truthy (str_or OPENTOPO_API_KEY (api_key data))) then
          (DownloadResponse 500
             (DownloadError "OpenTopography API key not configured"), w, [])
        else
          let key := default "" (str_or OPENTOPO_API_KEY (api_key data)) in
          let params := OpenTopoParams dem s n wst e "GTiff" key in
          match get params with
          | None =>
              (DownloadResponse 500 (DownloadError "DEM download failed"),
               w, [params])
          | Some response =>
              let output_path :=
                Os.path_join Backend.UPLOAD_FOLDER
                             ("dem_" +:+ uuid4 +:+ ".tif") in
              let (_, w1) := write_file output_path (content response) w in
              (DownloadResponse 200
                 (Downloaded uuid4 "DEM downloaded successfully"
                             (content_length response) s n wst e),
               w1, [params])
          end
    | _, _ =>
        (DownloadResponse 400
           (DownloadError "Latitude and longitude are required"), w, [])
    end.

End Routes.

(* ================================================================== *)
(** ** The command lines of the two scripts *)

Module DemProcessorCli.

(** [main] of dem_processor.py, lines 76-97.  [py_int] is Python's
    [int] on a string; a [SystemExit] is not caught by
    [except Exception]. *)
Definition main (py_int : string -> result Z) (argv : list string) : io unit :=
  fun w =>
    match argv with
    | _ :: dem_path :: output_path :: rest =>
        match (match rest with r :: _ => py_int r | [] => Ok 513 end) with
        | Raise e => (Raise e, w)
        | Ok resolution =>
            match Os.path_exists dem_path w with
            | (Ok true, w1) =>
                match DemProcessor.process_dem_to_heightmap
                        dem_path output_path resolution w1 with
                | (Ok _, w2) => (Ok tt, w2)
                | (Raise (SystemExit c), w2) => (Raise (SystemExit c), w2)
                | (Raise _, w2) => (Raise (SystemExit 1), w2)
                end
            | (Ok false, w1) => (Raise (SystemExit 1), w1)
            | (Raise e, w1) => (Raise e, w1)
            end
        end
    | _ => (Raise (SystemExit 1), w)
    end.

End DemProcessorCli.

Module DemProcessorAltCli.

(** [process_dem_with_gdal], lines 35-72. *)
Definition process_dem_with_gdal (dem_path output_path : string)
           (resolution : Z) : io string :=
  fun w =>
    match Os.gdal_Open dem_path w with
    | (Ok None, w1) => (Raise (SystemExit 1), w1)
    | (Ok (Some elevation_data), w1) =>
        match DemProcessorAlt.process_dem_with_gdal elevation_data resolution with
        | Raise e => (Raise e, w1)
        | Ok heightmap =>
            match Os.makedirs (Os.dirname output_path) w1 with
            | (Raise e, w2) => (Raise e, w2)
            | (Ok _, w2) =>
                let (_, w3) := Os.save output_path heightmap w2 in
                (Ok output_path, w3)
            end
        end
    | (Raise e, w1) => (Raise e, w1)
    end.

(** [process_dem_with_rasterio], lines 75-114. *)
Definition process_dem_with_rasterio (dem_path output_path : string)
           (resolution : Z) : io string :=
  fun w =>
    match Os.rasterio_open dem_path w with
    | (Raise e, w1) => (Raise e, w1)
    | (Ok dataset, w1) =>
        match DemProcessorAlt.process_dem_with_rasterio dataset resolution with
        | Raise e => (Raise e, w1)
        | Ok heightmap =>
            match Os.makedirs (Os.dirname output_path) w1 with
            | (Raise e, w2) => (Raise e, w2)
            | (Ok _, w2) =>
                let (_, w3) := Os.save output_path heightmap w2 in
                (Ok output_path, w3)
            end
        end
    end.

(** [process_dem_to_heightmap], lines 117-137; the two flags are set by
    the imports at the top of the file. *)
Definition process_dem_to_heightmap (GDAL_AVAILABLE RASTERIO_AVAILABLE : bool)
           (dem_path output_path : string) (resolution : Z) : io string :=
  if GDAL_AVAILABLE then process_dem_with_gdal dem_path output_path resolution
  else if RASTERIO_AVAILABLE then
    process_dem_with_rasterio dem_path output_path resolution
  else fun w => (Raise (SystemExit 1), w).

(** [main], lines 140-161. *)
Definition main (GDAL_AVAILABLE RASTERIO_AVAILABLE : bool)
           (py_int : string -> result Z) (argv : list string) : io unit :=
  fun w =>
    match argv with
    | _ :: dem_path :: output_path :: rest =>
        match (match rest with r :: _ => py_int r | [] => Ok 513 end) with
        | Raise e => (Raise e, w)
        | Ok resolution =>
            match Os.path_exists dem_path w with
            | (Ok true, w1) =>
                match process_dem_to_heightmap GDAL_AVAILABLE RASTERIO_AVAILABLE
                        dem_path output_path resolution w1 with
                | (Ok _, w2) => (Ok tt, w2)
                | (Raise (SystemExit c), w2) => (Raise (SystemExit c), w2)
                | (Raise _, w2) => (Raise (SystemExit 1), w2)
                end
            | (Ok false, w1) => (Raise (SystemExit 1), w1)
            | (Raise e, w1) => (Raise e, w1)
            end
        end
    | _ => (Raise (SystemExit 1), w)
    end.

End DemProcessorAltCli.

(* ================================================================== *)
(** ** backend/n8n_client.py *)

Module N8N.

(** The headers [call_webhook] sends, lines 43-51: the content type,
    the API key when one is configured, then the caller's headers
    written over them ([dict.update]). *)
Definition request_headers (api_key : option string)
           (headers : option (gmap string string)) : gmap string string :=
  let base : gmap string string := {[ "Content-Type" := "application/json" ]} in
  let keyed :=
    if Backend.truthy api_key
    then <[ "X-N8N-API-KEY" := default "" api_key ]> base
    else base in
  match headers with
  | Some h => if bool_decide (h = ∅) then keyed else h ∪ keyed
  | None => keyed
  end.

(** Line 41. *)
Definition webhook_url (base_url webhook_path : string) : string :=
  base_url +:+ webhook_path.

End N8N.

(* ================================================================== *)
(** ** More predicates and sample inputs *)

(** A string without the character ['.']. *)
Definition dot_free (s : string) : bool := negb (Routes.contains_dot s).


Module Samples.

(** A flat 2x3 band. *)
Definition plateau : grid :=
  [[of_Z 500; of_Z 500; of_Z 500]; [of_Z 500; of_Z 500; of_Z 500]].

(** A 2x2 raster that declares a sentinel no cell carries. *)
Definition clean : raster :=
  Raster [[of_Z 1; of_Z 2]; [of_Z 3; of_Z 4]] (Some (of_Z (-9999))).

(** A 2x2 raster with one sentinel cell. *)
Definition holed : raster :=
  Raster [[of_Z 100; of_Z 150]; [of_Z (-9999); of_Z 250]]
         (Some (of_Z (-9999))).

Definition clean_store : world :=
  World {[ "temp/dem_x.tif" := GeoTIFF clean ]} [].

Definition holed_store : world :=
  World {[ "temp/dem_x.tif" := GeoTIFF holed ]} [].

Definition void_store : world :=
  World {[ "temp/dem_v.tif" := GeoTIFF Examples.void ]} [].

Definition empty_store : world := World ∅ [].

(** The heightmap of [clean] at resolution 129, with the sample
    triangulation and resizer. *)
Definition clean_heightmap : PIL.image_I16 :=
  match Backend.heightmap_of Interpolate.single_triangle Examples.nearest
          clean 129 with
  | Ok image => image
  | Raise _ => []
  end.

Definition no_georef : raster -> Routes.georef :=
  fun _ => Routes.Georef (0, 0, 1, 1)%Q "EPSG:4326".

(** Python's [int] on a plain decimal numeral (digits only). *)
Definition digit_of (c : ascii) : option Z :=
  let n := nat_of_ascii c in
  if (48 <=? n)%nat && (n <=? 57)%nat then Some (Z.of_nat (n - 48)) else None.

Fixpoint decimal (acc : Z) (s : string) : result Z :=
  match s with
  | EmptyString => Ok acc
  | String c r =>
      match digit_of c with
      | Some d => decimal (10 * acc + d) r
      | None => Raise ValueError
      end
  end.

Definition py_int (s : string) : result Z :=
  match s with
  | EmptyString => Raise ValueError
  | _ => decimal 0 s
  end.

Definition flat_cos : float64 -> float64 := fun _ => of_Z 1.

Definition always (r : raster) : Routes.opentopo :=
  fun _ => Some (Routes.UpstreamContent (GeoTIFF r) 1024).

End Samples.

(* ================================================================== *)
(** ** Proof automation *)

(** Case analysis on [mn < mx]: one case holds by computation, the
    other contradicts what is known about [mn] and [mx]. *)
Ltac order_cases mn mx :=
  destruct (Qlt_le_dec mn mx); first [ reflexivity | lra ].

(* ================================================================== *)
(** * Properties *)

(** ** The model on small inputs *)

Example dem_processor_heightmap_small :
  DemProcessor.heightmap_of (data Examples.small) 3 =
  Ok [[0; 10922; 21845]; [21845; 32767; 43690]; [43690; 54612; 65535]].
Proof. vm_compute. reflexivity. Qed.

Example backend_heightmap_small :
  Backend.heightmap_of Interpolate.single_triangle Examples.nearest
    Examples.small 3 =
  Ok [[0; 21845; 21845]; [43690; 65535; 65535]; [43690; 65535; 65535]].
Proof. vm_compute. reflexivity. Qed.

Example zoom_ramp_doubles :
  Forall2 (Forall2 F.equiv)
    (Ndimage.zoom Examples.ramp (2, 2)%Q)
    [[Fin 0; Fin (1 # 3); Fin (2 # 3); Fin 1];
     [Fin 0; Fin (1 # 3); Fin (2 # 3); Fin 1];
     [Fin 0; Fin (1 # 3); Fin (2 # 3); Fin 1];
     [Fin 0; Fin (1 # 3); Fin (2 # 3); Fin 1]].
Proof. vm_compute. repeat constructor. Qed.

Example fill_gaps_balanced :
  exists out,
    Backend.fill_gaps Interpolate.single_triangle
      (Backend.mark_nodata Examples.balanced) = Ok out /\
    Forall2 (Forall2 F.equiv) out
      [[Fin (-2); Fin 1]; [Fin 1; Fin 0]].
Proof.
  eexists. split; [ vm_compute; reflexivity | ].
  vm_compute. repeat constructor.
Qed.

Example cleanup_store :
  fst (Backend.cleanup (Some "x") Examples.store) =
  Backend.Response 200
    (Backend.JsonCleanup "Cleaned up 2 file(s)"
       ["dem_x.tif"; "dem_x_heightmap.png"]).
Proof. vm_compute. reflexivity. Qed.

Example process_dem_store :
  fst (Backend.process_dem Interpolate.single_triangle Examples.nearest
         (Backend.ProcessRequest (Some "x") (Some 129)) Examples.store) =
  Backend.Response 200
    (Backend.Attachment "temp/dem_x_heightmap.png" "heightmap_x.png").
Proof. vm_compute. reflexivity. Qed.

Example process_dem_unknown_file :
  fst (Backend.process_dem Interpolate.single_triangle Examples.nearest
         (Backend.ProcessRequest (Some "y") None) Examples.store) =
  Backend.Response 404 (Backend.JsonError "DEM file not found: y").
Proof. vm_compute. reflexivity. Qed.

(** ** Quantisation *)

Lemma Qtrunc_nonneg (q : Q) : (0 <= q)%Q -> Np.Qtrunc q = Qfloor q.
Proof.
  intros Hq. unfold Np.Qtrunc.
  destruct (Qlt_le_dec q 0) as [Hlt | _]; [ | reflexivity ].
  exfalso. apply (Qlt_not_le _ _ Hlt Hq).
Qed.

Lemma inject_Z_nonneg (n : Z) : 0 <= n -> (0 <= inject_Z n)%Q.
Proof. intros Hn. rewrite Zle_Qle in Hn. exact Hn. Qed.

Lemma Qfloor_unit_scaled (q : Q) (n : Z) :
  0 <= n -> (0 <= q)%Q -> (q <= 1)%Q ->
  0 <= Qfloor (q * inject_Z n) <= n.
Proof.
  intros Hn H0 H1.
  pose proof (inject_Z_nonneg n Hn) as Hq.
  split.
  - change 0 with (Qfloor (inject_Z 0)). apply Qfloor_resp_le.
    change (inject_Z 0) with 0%Q. apply Qmult_le_0_compat; assumption.
  - rewrite <- (Qfloor_Z n) at 2. apply Qfloor_resp_le.
    apply Qle_trans with (1 * inject_Z n)%Q.
    + apply Qmult_le_compat_r; assumption.
    + rewrite Qmult_1_l. apply Qle_refl.
Qed.

Lemma astype_uint_unit (w n : Z) (q : Q) :
  0 <= n < 2 ^ w -> (0 <= q)%Q -> (q <= 1)%Q ->
  Np.astype_uint w (F.mul (Fin q) (of_Z n)) = Qfloor (q * inject_Z n).
Proof.
  intros [Hn Hw] H0 H1. cbn [F.mul of_Z Np.astype_uint].
  rewrite Qtrunc_nonneg
    by (apply Qmult_le_0_compat; [ exact H0 | apply inject_Z_nonneg, Hn ]).
  pose proof (Qfloor_unit_scaled q n Hn H0 H1).
  apply Z.mod_small. lia.
Qed.




(** ** The 16-bit output of the backend *)

Lemma to_16bit_of_byte (b : Byte.byte) :
  Backend.to_16bit (PIL.Z_of_byte b) = 257 * PIL.Z_of_byte b.
Proof. destruct b; vm_compute; reflexivity. Qed.

Lemma Z_of_byte_range (b : Byte.byte) : 0 <= PIL.Z_of_byte b <= 255.
Proof.
  unfold PIL.Z_of_byte. pose proof (Byte.to_N_bounded b). lia.
Qed.

Lemma Forall_map2d {A B : Type} (f : A -> B) (P : B -> Prop)
      (g : list (list A)) :
  (forall x, P (f x)) -> Forall (Forall P) (Np.map2d f g).
Proof.
  intros H. unfold Np.map2d.
  induction g as [ | row g IH ]; constructor; [ | exact IH ].
  induction row; constructor; auto.
Qed.

Lemma map2d_map2d {A B C : Type} (f : B -> C) (h : A -> B)
      (g : list (list A)) :
  Np.map2d f (Np.map2d h g) = Np.map2d (fun x => f (h x)) g.
Proof.
  unfold Np.map2d. rewrite map_map.
  apply map_ext. intros row. apply map_map.
Qed.

Lemma image_16bit_multiples (image : PIL.image_L) :
  Forall (Forall multiple_of_257) (Backend.image_16bit image).
Proof.
  unfold Backend.image_16bit, PIL.to_array.
  rewrite map2d_map2d.
  apply Forall_map2d. intros b.
  exists (PIL.Z_of_byte b). split.
  - apply Z_of_byte_range.
  - apply to_16bit_of_byte.
Qed.

(** The rescaling of a byte gives the same integer in binary64
    arithmetic as in exact arithmetic. *)
Lemma to_16bit_binary64 :
  forallb (fun k => Binary64.to_16bit (Z.of_nat k) =? Backend.to_16bit (Z.of_nat k))
          (seq 0 256) = true.
Proof. vm_compute. reflexivity. Qed.

(** C10.  Whatever raster, triangulation and PIL resize are used, every
    pixel of the 16-bit heightmap computed by the backend's
    [process_dem_to_heightmap] is [257 * k] for some [k] in [[0,255]]:
    the grid goes through an 8-bit image before it is rescaled. *)
Theorem backend_heightmap_levels
        (tri : Interpolate.triangulation) (resize : PIL.resizer)
        (r : raster) (resolution : Z) (heightmap : PIL.image_I16) :
  Backend.heightmap_of tri resize r resolution = Ok heightmap ->
  Forall (Forall multiple_of_257) heightmap.
Proof.
  unfold Backend.heightmap_of. intros H.
  destruct (Backend.fill_gaps tri (Backend.mark_nodata r)) as [e | ?];
    [ | discriminate ].
  cbn in H.
  destruct (Backend.normalize e) as [n | ?]; [ | discriminate ].
  cbn in H. injection H as <-.
  apply image_16bit_multiples.
Qed.

Lemma backend_heightmap_levels_witness :
  Forall (Forall multiple_of_257) [[0; 21845]; [43690; 65535]].
Proof.
  apply (backend_heightmap_levels
           Interpolate.single_triangle Examples.nearest
           (Raster [[of_Z 0; of_Z 1]; [of_Z 2; of_Z 3]] None) 2).
  vm_compute. reflexivity.
Defined.

(** ** The cleanup route *)

Lemma cleanup_step_spec (deleted : list string) (w : world) (pattern : string) :
  let p := Os.path_join Backend.UPLOAD_FOLDER pattern in
  exists tr,
    Backend.cleanup_step (Ok deleted, w) pattern =
    (Ok (match files w !! p with Some _ => deleted ++ [pattern] | None => deleted end),
     World (delete p (files w)) tr).
Proof.
  intros p. unfold Backend.cleanup_step, Os.path_exists. fold p.
  destruct (files w !! p) as [f | ] eqn:Hp.
  - rewrite bool_decide_eq_true_2 by eauto.
    unfold Os.remove, Os.log. cbn [files trace]. rewrite Hp.
    eexists. reflexivity.
  - rewrite bool_decide_eq_false_2 by (intros [? ?]; discriminate).
    unfold Os.log. rewrite (delete_id (files w) p Hp).
    eexists. reflexivity.
Qed.

Lemma truthy_nonempty (fid : string) : fid <> "" -> Backend.truthy (Some fid) = true.
Proof. destruct fid; [ congruence | reflexivity ]. Qed.

Lemma cleanup_files (fid : string) (w : world) :
  fid <> "" ->
  let p1 := Os.path_join Backend.UPLOAD_FOLDER ("dem_" +:+ fid +:+ ".tif") in
  let p2 := Os.path_join Backend.UPLOAD_FOLDER ("dem_" +:+ fid +:+ "_heightmap.png") in
  exists tr,
    Backend.cleanup (Some fid) w =
    (Backend.Response 200
       (Backend.JsonCleanup
          ("Cleaned up " +:+
           Backend.nat_str
             (length ((match files w !! p1 with Some _ => ["dem_" +:+ fid +:+ ".tif"] | None => [] end)
                      ++ (match delete p1 (files w) !! p2 with
                          | Some _ => ["dem_" +:+ fid +:+ "_heightmap.png"]
                          | None => []
                          end)))
           +:+ " file(s)")
          ((match files w !! p1 with Some _ => ["dem_" +:+ fid +:+ ".tif"] | None => [] end)
           ++ (match delete p1 (files w) !! p2 with
               | Some _ => ["dem_" +:+ fid +:+ "_heightmap.png"]
               | None => []
               end))),
     World (delete p2 (delete p1 (files w))) tr).
Proof.
  intros Hfid p1 p2. unfold Backend.cleanup.
  rewrite (truthy_nonempty fid Hfid). cbn [negb default from_option fold_left]. unfold id.
  destruct (cleanup_step_spec [] w ("dem_" +:+ fid +:+ ".tif")) as [tr1 ->].
  fold p1.
  destruct (cleanup_step_spec
              (match files w !! p1 with
               | Some _ => [] ++ ["dem_" +:+ fid +:+ ".tif"]
               | None => []
               end)
              (World (delete p1 (files w)) tr1)
              ("dem_" +:+ fid +:+ "_heightmap.png")) as [tr2 ->].
  fold p2. cbn [files].
  exists tr2.
  destruct (files w !! p1), (delete p1 (files w) !! p2); reflexivity.
Qed.

(** C9.  For a file id that is present (not the empty string), a second
    cleanup right after the first answers 200 with an empty [deleted]
    list. *)
Theorem cleanup_idempotent (fid : string) (w : world) :
  fid <> "" ->
  fst (Backend.cleanup (Some fid) (snd (Backend.cleanup (Some fid) w))) =
  Backend.Response 200 (Backend.JsonCleanup "Cleaned up 0 file(s)" []).
Proof.
  intros Hfid.
  destruct (cleanup_files fid w Hfid) as [tr1 ->]. cbn [snd].
  set (p1 := Os.path_join _ ("dem_" +:+ fid +:+ ".tif")).
  set (p2 := Os.path_join _ ("dem_" +:+ fid +:+ "_heightmap.png")).
  destruct (cleanup_files fid (World (delete p2 (delete p1 (files w))) tr1) Hfid)
    as [tr2 ->].
  cbn [fst files]. fold p1 p2.
  assert (H1 : delete p2 (delete p1 (files w)) !! p1 = None).
  { apply lookup_delete_None. right. apply lookup_delete_eq. }
  assert (H2 : delete p1 (delete p2 (delete p1 (files w))) !! p2 = None).
  { apply lookup_delete_None. right. apply lookup_delete_eq. }
  rewrite H1, H2. reflexivity.
Qed.

Lemma cleanup_idempotent_witness :
  fst (Backend.cleanup (Some "x")
         (snd (Backend.cleanup (Some "x") Examples.store))) =
  Backend.Response 200 (Backend.JsonCleanup "Cleaned up 0 file(s)" []).
Proof.
  apply (cleanup_idempotent "x" Examples.store). discriminate.
Defined.

(** ** Validation of the resolution *)

Lemma existsb_eqb_false (z : Z) (l : list Z) :
  ~ In z l -> existsb (Z.eqb z) l = false.
Proof.
  intros Hz. induction l as [ | a l IH ]; [ reflexivity | ].
  cbn [existsb]. rewrite IH by (intros H; apply Hz; right; exact H).
  destruct (Z.eqb_spec z a) as [-> | _]; [ | reflexivity ].
  exfalso. apply Hz. left. reflexivity.
Qed.

(** C7, for the HTTP route.  A request whose resolution (513 when the
    field is absent) is not one of the six supported sizes is answered
    with status 400 and the store is left as it was: no file operation
    is recorded. *)
Theorem process_dem_rejects_resolution
        (tri : Interpolate.triangulation) (resize : PIL.resizer)
        (req : Backend.process_request) (w : world) :
  ~ In (default 513 (Backend.pr_resolution req)) Backend.supported_resolutions ->
  exists msg,
    Backend.process_dem tri resize req w =
    (Backend.Response 400 (Backend.JsonError msg), w).
Proof.
  intros Hres. unfold Backend.process_dem.
  destruct (Backend.truthy (Backend.pr_file_id req)); cbn [negb].
  - rewrite (existsb_eqb_false _ _ Hres). cbn [negb]. eexists. reflexivity.
  - eexists. reflexivity.
Qed.

Lemma process_dem_rejects_resolution_witness :
  exists msg,
    Backend.process_dem Interpolate.single_triangle Examples.nearest
      (Backend.ProcessRequest (Some "x") (Some 500)) Examples.store =
    (Backend.Response 400 (Backend.JsonError msg), Examples.store).
Proof.
  apply (process_dem_rejects_resolution
           Interpolate.single_triangle Examples.nearest
           (Backend.ProcessRequest (Some "x") (Some 500)) Examples.store).
  vm_compute. intuition discriminate.
Defined.

(** The script has no such check: any resolution is taken, the file is
    opened and a heightmap is written. *)
Lemma dem_processor_takes_any_resolution
      (dem_path output_path : string) (resolution : Z) (w : world)
      (r : raster) (x : float64) (row : list float64) (rows : grid) :
  files w !! dem_path = Some (GeoTIFF r) ->
  data r = (x :: row) :: rows ->
  Os.dirname output_path <> "" ->
  exists heightmap,
    DemProcessor.process_dem_to_heightmap dem_path output_path resolution w =
    (Ok output_path,
     World (<[output_path := PNG16 heightmap]> (files w))
           (trace w ++ [FsOpen dem_path; FsMakedirs (Os.dirname output_path);
                        FsWrite output_path])).
Proof.
  intros Hfile Hdata Hdir.
  unfold DemProcessor.process_dem_to_heightmap, Os.gdal_Open.
  rewrite Hfile, Hdata.
  unfold DemProcessor.heightmap_of, DemProcessor.normalize, Np.min, Np.max,
    Np.reduce.
  cbn [concat app mbind result_bind].
  set (mn := fold_left Np.minimum _ x).
  set (mx := fold_left Np.maximum _ x).
  destruct (F.eqb mx mn);
    cbn [mbind result_bind DemProcessor.resize py_div length hd];
    unfold Os.makedirs, Os.save, Os.log;
    (destruct (Os.dirname output_path); [ congruence | ]);
    cbn [files trace];
    rewrite <- !app_assoc; cbn [app]; eexists; reflexivity.
Qed.

(** C7, as the specification words it, fails for the script entry point:
    [process_dem_to_heightmap] of dem_processor.py, called with the
    unsupported resolution 500, opens the raster and writes the output. *)
Lemma dem_processor_accepts_500 :
  ~ In 500 Backend.supported_resolutions /\
  exists w',
    DemProcessor.process_dem_to_heightmap
      "temp/dem_x.tif" "out/h.png" 500 Examples.store = (Ok "out/h.png", w') /\
    trace w' = [FsOpen "temp/dem_x.tif"; FsMakedirs "out"; FsWrite "out/h.png"].
Proof.
  split.
  - vm_compute. intuition discriminate.
  - destruct (dem_processor_takes_any_resolution
                "temp/dem_x.tif" "out/h.png" 500 Examples.store
                Examples.small (of_Z 1) [of_Z 2] [[of_Z 3; of_Z 4]])
      as [hm ->]; [ reflexivity | reflexivity | discriminate | ].
    eexists. split; reflexivity.
Qed.

(** ** Normalisation *)


Lemma minimum_Fin (a b : Q) : Np.minimum (Fin a) (Fin b) = Fin (Qmin a b).
Proof.
  unfold Np.minimum, Qmin, GenericMinMax.gmin. cbn [F.isnan F.ltb].
  rewrite <- (Qcompare_antisym a b).
  destruct (a ?= b)%Q; reflexivity.
Qed.

Lemma maximum_Fin (a b : Q) : Np.maximum (Fin a) (Fin b) = Fin (Qmax a b).
Proof.
  unfold Np.maximum, Qmax, GenericMinMax.gmax. cbn [F.isnan F.ltb].
  destruct (a ?= b)%Q; reflexivity.
Qed.

Lemma fold_minimum_Fin (r : list Q) (a : Q) :
  fold_left Np.minimum (map Fin r) (Fin a) = Fin (fold_left Qmin r a).
Proof.
  revert a. induction r as [ | b r IH ]; intros a; [ reflexivity | ].
  cbn [map fold_left]. rewrite minimum_Fin. apply IH.
Qed.

Lemma fold_maximum_Fin (r : list Q) (a : Q) :
  fold_left Np.maximum (map Fin r) (Fin a) = Fin (fold_left Qmax r a).
Proof.
  revert a. induction r as [ | b r IH ]; intros a; [ reflexivity | ].
  cbn [map fold_left]. rewrite maximum_Fin. apply IH.
Qed.

Lemma Qmin_cases (a b : Q) : Qmin a b = a \/ Qmin a b = b.
Proof.
  unfold Qmin, GenericMinMax.gmin. destruct (a ?= b)%Q; auto.
Qed.

Lemma Qmax_cases (a b : Q) : Qmax a b = a \/ Qmax a b = b.
Proof.
  unfold Qmax, GenericMinMax.gmax. destruct (a ?= b)%Q; auto.
Qed.

Lemma fold_Qmin_spec (r : list Q) (a : Q) :
  (fold_left Qmin r a <= a)%Q /\
  (forall b, In b r -> (fold_left Qmin r a <= b)%Q) /\
  In (fold_left Qmin r a) (a :: r).
Proof.
  revert a. induction r as [ | c r IH ]; intros a.
  - cbn. repeat split; [ apply Qle_refl | tauto | auto ].
  - cbn [fold_left]. destruct (IH (Qmin a c)) as (Hle & Hall & Hin).
    repeat split.
    + eapply Qle_trans; [ exact Hle | apply Q.le_min_l ].
    + intros b [<- | Hb].
      * eapply Qle_trans; [ exact Hle | apply Q.le_min_r ].
      * apply Hall, Hb.
    + destruct Hin as [Heq | Hin].
      * rewrite <- Heq. destruct (Qmin_cases a c) as [-> | ->]; cbn; auto.
      * right. right. exact Hin.
Qed.

Lemma fold_Qmax_spec (r : list Q) (a : Q) :
  (a <= fold_left Qmax r a)%Q /\
  (forall b, In b r -> (b <= fold_left Qmax r a)%Q) /\
  In (fold_left Qmax r a) (a :: r).
Proof.
  revert a. induction r as [ | c r IH ]; intros a.
  - cbn. repeat split; [ apply Qle_refl | tauto | auto ].
  - cbn [fold_left]. destruct (IH (Qmax a c)) as (Hle & Hall & Hin).
    repeat split.
    + eapply Qle_trans; [ apply Q.le_max_l | exact Hle ].
    + intros b [<- | Hb].
      * eapply Qle_trans; [ apply Q.le_max_r | exact Hle ].
      * apply Hall, Hb.
    + destruct Hin as [Heq | Hin].
      * rewrite <- Heq. destruct (Qmax_cases a c) as [-> | ->]; cbn; auto.
      * right. right. exact Hin.
Qed.

(** The cells that survive [drop_nan], when no cell is infinite, are the
    finite cells. *)
Lemma drop_nan_finite_cells (xs : list float64) :
  Forall (fun x => F.isinf x = false) xs ->
  Np.drop_nan xs =
  map Fin (Spec.finite_part xs).
Proof.
  induction 1 as [ | x xs Hx _ IH ]; [ reflexivity | ].
  unfold Np.drop_nan in *. cbn [List.filter Spec.finite_part flat_map app].
  unfold Spec.finite_part in *.
  destruct x; cbn in *; try discriminate; rewrite IH; reflexivity.
Qed.

Lemma Forall_concat_grid (P : float64 -> Prop) (g : grid) :
  Forall (Forall P) g -> Forall P (concat g).
Proof.
  induction 1 as [ | row g Hrow _ IH ]; cbn [concat]; [ constructor | ].
  apply Forall_app. split; assumption.
Qed.

Lemma In_finite_cells (xs : list float64) (a : Q) :
  In a (Spec.finite_part xs) <->
  In (Fin a) xs.
Proof.
  induction xs as [ | x xs IH ]; [ reflexivity | ].
  unfold Spec.finite_part in *. cbn [flat_map]. destruct x as [ q | | | ]; cbn [In app]; rewrite ?IH.
  - split.
    + intros [-> | H]; [ left; reflexivity | right; exact H ].
    + intros [[= ->] | H]; [ left; reflexivity | right; exact H ].
  - split; [ intros H; right; exact H | intros [[=] | H]; exact H ].
  - split; [ intros H; right; exact H | intros [[=] | H]; exact H ].
  - split; [ intros H; right; exact H | intros [[=] | H]; exact H ].
Qed.

Lemma finite_cells_all_finite (xs : list float64) :
  Forall (fun x => F.isfinite x = true) xs ->
  xs = map Fin (Spec.finite_part xs).
Proof.
  induction 1 as [ | x xs Hx _ IH ]; [ reflexivity | ].
  destruct x; try discriminate. unfold Spec.finite_part in *. cbn [flat_map map app]. f_equal. exact IH.
Qed.

Lemma map2d_ext_Forall {A B : Type} (P : A -> Prop) (f h : A -> B)
      (g : list (list A)) :
  Forall (Forall P) g -> (forall x, P x -> f x = h x) ->
  Np.map2d f g = Np.map2d h g.
Proof.
  intros Hg Hfh. unfold Np.map2d.
  induction Hg as [ | row g Hrow _ IH ]; [ reflexivity | ].
  cbn [map]. f_equal; [ | exact IH ].
  induction Hrow as [ | x row Hx _ IHrow ]; [ reflexivity | ].
  cbn [map]. f_equal; [ apply Hfh, Hx | exact IHrow ].
Qed.

Lemma rescale_code (a mn mx : Q) :
  (mn < mx)%Q ->
  F.div (F.sub (Fin a) (Fin mn)) (F.sub (Fin mx) (Fin mn)) =
  Fin ((a - mn) / (mx - mn)).
Proof.
  intros Hlt. cbn [F.sub F.neg F.add F.div].
  destruct (Qeq_bool (mx + - mn) 0) eqn:E; [ | reflexivity ].
  apply Qeq_bool_iff in E. lra.
Qed.


Lemma finite_no_inf (g : grid) : grid_finite g -> grid_no_inf g.
Proof.
  unfold grid_finite, grid_no_inf. intros H.
  eapply Forall_impl; [ exact H | ]. intros row Hrow.
  eapply Forall_impl; [ exact Hrow | ].
  intros x Hx. destruct x; (reflexivity || discriminate).
Qed.

Lemma finite_cells_nonempty (g : grid) :
  grid_finite g -> concat g <> [] -> Spec.finite_cells g <> [].
Proof.
  intros Hg Hne Hfc. apply Hne.
  rewrite (finite_cells_all_finite (concat g)) by (apply Forall_concat_grid, Hg).
  unfold Spec.finite_cells in Hfc. rewrite Hfc. reflexivity.
Qed.

(** The extrema the specification's normaliser works with are the least
    and the greatest finite cell. *)
Lemma extrema_spec (g : grid) (a : Q) (r : list Q) :
  Spec.finite_cells g = a :: r ->
  Spec.is_minimum (fold_left Qmin r a) g /\
  Spec.is_maximum (fold_left Qmax r a) g /\
  (fold_left Qmin r a <= fold_left Qmax r a)%Q.
Proof.
  intros Hfc.
  destruct (fold_Qmin_spec r a) as (Hmin_a & Hmin_r & Hmin_in).
  destruct (fold_Qmax_spec r a) as (Hmax_a & Hmax_r & Hmax_in).
  unfold Spec.is_minimum, Spec.is_maximum.
  rewrite <- Hfc in Hmin_in, Hmax_in.
  repeat split.
  - apply In_finite_cells, Hmin_in.
  - intros b Hb. apply In_finite_cells in Hb.
    fold (Spec.finite_cells g) in Hb. rewrite Hfc in Hb.
    destruct Hb as [<- | Hb]; [ exact Hmin_a | apply Hmin_r, Hb ].
  - apply In_finite_cells, Hmax_in.
  - intros b Hb. apply In_finite_cells in Hb.
    fold (Spec.finite_cells g) in Hb. rewrite Hfc in Hb.
    destruct Hb as [<- | Hb]; [ exact Hmax_a | apply Hmax_r, Hb ].
  - eapply Qle_trans; [ exact Hmin_a | exact Hmax_a ].
Qed.

Lemma Forall_True_grid {A : Type} (g : list (list A)) :
  Forall (Forall (fun _ => True)) g.
Proof.
  induction g as [ | row g IH ]; constructor; [ | exact IH ].
  induction row; constructor; auto.
Qed.


Lemma backend_normalize_spec (g : grid) :
  grid_finite g -> concat g <> [] ->
  Backend.normalize g = Ok (Spec.normalizer g).
Proof.
  intros Hg Hne.
  pose proof (finite_cells_nonempty g Hg Hne) as Hfc.
  unfold Backend.normalize, Np.nanmin, Np.nanmax, Np.nanreduce, Spec.normalizer.
  rewrite (drop_nan_finite_cells (concat g))
    by (apply Forall_concat_grid, finite_no_inf, Hg).
  fold (Spec.finite_cells g).
  destruct (concat g) as [ | x0 xs ]; [ congruence | ].
  destruct (Spec.finite_cells g) as [ | a r ]; [ congruence | ].
  cbn [map Spec.extremum mbind result_bind].
  rewrite fold_minimum_Fin, fold_maximum_Fin.
  set (mn := fold_left Qmin r a). set (mx := fold_left Qmax r a).
  unfold F.gtb. cbn [F.ltb].
  destruct (mn ?= mx)%Q eqn:E; f_equal; unfold Np.zeros_like;
    apply (map2d_ext_Forall (fun x => F.isfinite x = true)); try exact Hg;
    intros [ b | | | ] Hb; try discriminate.
  - apply Qeq_alt in E.
    order_cases mn mx.
  - apply Qlt_alt in E. rewrite rescale_code by exact E.
    order_cases mn mx.
  - apply Qgt_alt in E.
    order_cases mn mx.
Qed.

Lemma dem_processor_normalize_spec (g : grid) :
  grid_finite g -> concat g <> [] ->
  DemProcessor.normalize g = Ok (Spec.normalizer g).
Proof.
  intros Hg Hne.
  pose proof (finite_cells_nonempty g Hg Hne) as Hfc.
  destruct (Spec.finite_cells g) as [ | a r ] eqn:Hcells; [ congruence | ].
  destruct (extrema_spec g a r Hcells) as (_ & _ & Hle).
  unfold DemProcessor.normalize, Np.min, Np.max, Np.reduce, Spec.normalizer.
  rewrite (finite_cells_all_finite (concat g)) by (apply Forall_concat_grid, Hg).
  fold (Spec.finite_cells g). rewrite Hcells.
  cbn [map Spec.extremum mbind result_bind].
  rewrite fold_minimum_Fin, fold_maximum_Fin.
  set (mn := fold_left Qmin r a) in *. set (mx := fold_left Qmax r a) in *.
  cbn [F.eqb].
  destruct (Qeq_bool mx mn) eqn:E; f_equal; unfold Np.zeros_like;
    apply (map2d_ext_Forall (fun x => F.isfinite x = true)); try exact Hg;
    intros [ b | | | ] Hb; try discriminate.
  - apply Qeq_bool_iff in E.
    order_cases mn mx.
  - assert (Hlt : (mn < mx)%Q).
    { destruct (Qlt_le_dec mn mx) as [Hlt | Hge]; [ exact Hlt | ].
      assert (Heq : (mx == mn)%Q) by lra.
      apply Qeq_bool_iff in Heq. congruence. }
    rewrite rescale_code by exact Hlt.
    order_cases mn mx.
Qed.


(** C6, as the code has it.  On every grid without an infinite cell the
    rasterio path of dem_processor_alt.py computes the specification's
    normaliser: min and max are taken over the cells that are not NaN,
    and every cell that is NaN after the rescaling is written as [0.0]. *)
Theorem alt_normalizer_ignores_nan (g : grid) :
  grid_no_inf g -> concat g <> [] ->
  DemProcessorAlt.normalize g = Ok (Spec.normalizer g).
Proof.
  intros Hg Hne.
  unfold DemProcessorAlt.normalize, Np.nanmin, Np.nanmax, Np.nanreduce,
    Spec.normalizer.
  rewrite (drop_nan_finite_cells (concat g)) by (apply Forall_concat_grid, Hg).
  fold (Spec.finite_cells g).
  destruct (concat g) as [ | x0 xs ]; [ congruence | ].
  destruct (Spec.finite_cells g) as [ | a r ] eqn:Hfc.
  - cbn. f_equal. rewrite map2d_map2d. unfold Np.zeros_like.
    apply (map2d_ext_Forall (fun _ => True));
      [ apply Forall_True_grid | intros [ | | | ] _; reflexivity ].
  - destruct (extrema_spec g a r Hfc) as (_ & _ & Hle).
    cbn [map Spec.extremum mbind result_bind].
    rewrite fold_minimum_Fin, fold_maximum_Fin.
    set (mn := fold_left Qmin r a) in *. set (mx := fold_left Qmax r a) in *.
    cbn [F.eqb].
    destruct (Qeq_bool mx mn) eqn:E; cbn [mbind result_bind]; f_equal.
    + apply Qeq_bool_iff in E. unfold Np.zeros_like. rewrite map2d_map2d.
      apply (map2d_ext_Forall (fun _ => True)).
      * apply Forall_True_grid.
      * intros [ b | | | ] _; try reflexivity.
        order_cases mn mx.
    + assert (Hlt : (mn < mx)%Q).
      { destruct (Qlt_le_dec mn mx) as [Hlt | Hge]; [ exact Hlt | ].
        assert (Heq : (mx == mn)%Q) by lra.
        apply Qeq_bool_iff in Heq. congruence. }
      rewrite map2d_map2d.
      apply (map2d_ext_Forall (fun x => F.isinf x = false)); [ exact Hg | ].
      intros [ b | | | ] Hx; try discriminate.
      * rewrite rescale_code by exact Hlt.
        order_cases mn mx.
      * reflexivity.
Qed.

Lemma alt_normalizer_ignores_nan_witness :
  DemProcessorAlt.normalize Examples.gappy = Ok (Spec.normalizer Examples.gappy).
Proof.
  apply (alt_normalizer_ignores_nan Examples.gappy).
  - repeat constructor.
  - discriminate.
Defined.

(** C6, as the specification words it, fails twice.  dem_processor.py
    takes the plain min and max, so one NaN cell turns every output cell
    into NaN, and nothing maps them to zero.  The rasterio path skips
    NaN but not an infinite cell, which then decides the maximum. *)
Lemma normalizer_non_finite_counterexample :
  DemProcessor.normalize [[NaN; of_Z 1; of_Z 2]] = Ok [[NaN; NaN; NaN]] /\
  Spec.normalizer [[NaN; of_Z 1; of_Z 2]] = [[Fin 0; Fin 0; Fin 1]] /\
  DemProcessorAlt.normalize [[of_Z 0; of_Z 1; PInf]] = Ok [[Fin 0; Fin 0; Fin 0]] /\
  Spec.normalizer [[of_Z 0; of_Z 1; PInf]] = [[Fin 0; Fin 1; Fin 0]].
Proof. repeat split; reflexivity. Qed.


(** On a raster of finite cells without a declared sentinel the backend
    pipeline does return a heightmap. *)
Lemma any_isnan_finite (g : grid) :
  grid_finite g -> Np.any_isnan g = false.
Proof.
  intros Hg. unfold Np.any_isnan.
  pose proof (Forall_concat_grid _ g Hg) as Hc.
  induction Hc as [ | x xs Hx _ IH ]; [ reflexivity | ].
  cbn [existsb]. rewrite IH. destruct x; (reflexivity || discriminate).
Qed.

Lemma backend_heightmap_returns
      (tri : Interpolate.triangulation) (resize : PIL.resizer)
      (r : raster) (resolution : Z) :
  nodata r = None -> grid_finite (data r) -> concat (data r) <> [] ->
  exists heightmap,
    Backend.heightmap_of tri resize r resolution = Ok heightmap.
Proof.
  intros Hnd Hfin Hne.
  unfold Backend.heightmap_of, Backend.mark_nodata, Backend.fill_gaps.
  rewrite Hnd, (any_isnan_finite _ Hfin). cbn [mbind result_bind].
  rewrite (backend_normalize_spec _ Hfin Hne). cbn [mbind result_bind].
  eexists. reflexivity.
Qed.

(** ** Gap filling *)








Lemma known_row_all_nan (i j : nat) (row : list float64) :
  Backend.known_row i j (map (fun _ => NaN) row) = [].
Proof.
  revert j. induction row as [ | x row IH ]; intros j; [ reflexivity | ].
  cbn [map Backend.known_row F.isnan app]. apply IH.
Qed.

Lemma known_all_nan (i : nat) (g : grid) :
  Backend.known_from i (Np.map2d (fun _ => NaN) g) = [].
Proof.
  unfold Np.map2d. revert i.
  induction g as [ | row g IH ]; intros i; [ reflexivity | ].
  cbn [map Backend.known_from]. rewrite known_row_all_nan. apply IH.
Qed.

Lemma any_isnan_all_nan (g : grid) :
  concat g <> [] -> Np.any_isnan (Np.map2d (fun _ => NaN) g) = true.
Proof.
  unfold Np.any_isnan, Np.map2d.
  induction g as [ | row g IH ]; intros Hne; [ contradiction Hne; reflexivity | ].
  cbn [map concat]. rewrite existsb_app.
  destruct row as [ | x row ]; [ | reflexivity ].
  cbn [map existsb orb]. apply IH. exact Hne.
Qed.

(** C3 at its failing inputs.  When the raster declares a sentinel and
    every one of its cells equals it, no cell is known: [griddata] is
    called on an empty sample set and raises.  No grid of zeros is
    produced, whatever the triangulation does. *)
Theorem gap_filler_all_missing_raises
        (tri : Interpolate.triangulation) (r : raster) (v : float64) :
  nodata r = Some v ->
  Forall (Forall (fun x => F.eqb x v = true)) (data r) ->
  concat (data r) <> [] ->
  Backend.fill_gaps tri (Backend.mark_nodata r) = Raise ValueError.
Proof.
  intros Hv Hall Hne.
  assert (Hmark : Backend.mark_nodata r = Np.map2d (fun _ => NaN) (data r)).
  { unfold Backend.mark_nodata, Np.where_eq_nan. rewrite Hv.
    apply (map2d_ext_Forall (fun x => F.eqb x v = true)); [ exact Hall | ].
    intros x Hx. rewrite Hx. reflexivity. }
  unfold Backend.fill_gaps, Backend.known. rewrite Hmark.
  rewrite (any_isnan_all_nan _ Hne), known_all_nan. reflexivity.
Qed.

Lemma gap_filler_all_missing_raises_witness :
  Backend.fill_gaps Interpolate.single_triangle
    (Backend.mark_nodata Examples.void) = Raise ValueError.
Proof.
  apply (gap_filler_all_missing_raises
           Interpolate.single_triangle Examples.void (of_Z (-9999))).
  - reflexivity.
  - repeat constructor.
  - discriminate.
Defined.

(** ** Resampling *)

Lemma round_half_even_inject (z : Z) : Np.round_half_even (inject_Z z) = z.
Proof.
  unfold Np.round_half_even. rewrite Qfloor_Z.
  assert (E : forall q : Q, (q - q ?= 1 # 2)%Q = Lt)
    by (intros q; apply (proj1 (Qlt_alt _ _)); lra).
  rewrite E. reflexivity.
Qed.

Lemma round_half_even_comp (x y : Q) :
  (x == y)%Q -> Np.round_half_even x = Np.round_half_even y.
Proof.
  intros H. unfold Np.round_half_even. rewrite (Qfloor_comp x y H).
  assert (E : (x - inject_Z (Qfloor y) ?= 1 # 2)%Q
              = (y - inject_Z (Qfloor y) ?= 1 # 2)%Q).
  { apply Qcompare_comp; [ | reflexivity ].
    generalize (inject_Z (Qfloor y)). intros f. lra. }
  rewrite E. reflexivity.
Qed.

Lemma inject_nat_nonzero (n : nat) :
  n <> 0%nat -> ~ (inject_Z (Z.of_nat n) == 0)%Q.
Proof. intros Hn. unfold Qeq. cbn. lia. Qed.


Lemma output_len_exact (n T : nat) :
  n <> 0%nat ->
  Ndimage.output_len n (inject_Z (Z.of_nat T) / inject_Z (Z.of_nat n)) = T.
Proof.
  intros Hn. unfold Ndimage.output_len.
  rewrite (round_half_even_comp _ (inject_Z (Z.of_nat T))).
  - rewrite round_half_even_inject. apply Nat2Z.id.
  - field. apply inject_nat_nonzero, Hn.
Qed.



Lemma coordinate_bounds (n_in n_out k : nat) :
  (1 <= n_in)%nat -> (k < n_out)%nat ->
  (0 <= Ndimage.coordinate n_in n_out k)%Q /\
  (Ndimage.coordinate n_in n_out k <= inject_Z (Z.of_nat n_in - 1))%Q.
Proof.
  intros Hin Hk. unfold Ndimage.coordinate, Ndimage.zoom_ratio. cbv zeta.
  assert (Ha : (0 <= inject_Z (Z.of_nat n_in - 1))%Q)
    by (apply inject_Z_nonneg; lia).
  assert (Hk0 : (0 <= inject_Z (Z.of_nat k))%Q)
    by (apply inject_Z_nonneg; lia).
  destruct (Z.eqb_spec (Z.of_nat n_out - 1) 0) as [Hd | Hd].
  - assert (k = 0%nat) as -> by lia.
    change (inject_Z (Z.of_nat 0)) with 0%Q in *. split; lra.
  - assert (Hb : (0 < inject_Z (Z.of_nat n_out - 1))%Q).
    { change 0%Q with (inject_Z 0). rewrite <- Zlt_Qlt. lia. }
    assert (Hkb : (inject_Z (Z.of_nat k) <= inject_Z (Z.of_nat n_out - 1))%Q).
    { rewrite <- Zle_Qle. lia. }
    set (a := inject_Z (Z.of_nat n_in - 1)) in *.
    set (b := inject_Z (Z.of_nat n_out - 1)) in *.
    set (kq := inject_Z (Z.of_nat k)) in *.
    assert (Hab : (0 <= a / b)%Q) by (apply Qle_shift_div_l; lra).
    split.
    + apply Qmult_le_0_compat; assumption.
    + apply Qle_trans with (b * (a / b))%Q.
      * apply Qmult_le_compat_r; assumption.
      * apply Qle_lteq. right. field. lra.
Qed.

Lemma floor_coordinate_bounds (n_in n_out k : nat) :
  (1 <= n_in)%nat -> (k < n_out)%nat ->
  0 <= Qfloor (Ndimage.coordinate n_in n_out k) <= Z.of_nat n_in - 1.
Proof.
  intros Hin Hk.
  destruct (coordinate_bounds n_in n_out k Hin Hk) as [H0 H1]. split.
  - change 0 with (Qfloor (inject_Z 0)). apply Qfloor_resp_le. exact H0.
  - rewrite <- (Qfloor_Z (Z.of_nat n_in - 1)). apply Qfloor_resp_le. exact H1.
Qed.

Lemma mirror_inside (len idx : Z) :
  0 <= idx < len -> Ndimage.mirror len idx = idx.
Proof.
  intros H. unfold Ndimage.mirror.
  destruct (Z.leb_spec len 1); [ lia | ].
  destruct (Z.ltb_spec idx 0); [ lia | ].
  destruct (Z.leb_spec len idx); [ lia | reflexivity ].
Qed.

(** The neighbours and weights of an output index: the lower neighbour
    is the floor of the coordinate, the weights are [1 - t] and [t], and
    the upper neighbour is the next cell unless [t = 0]. *)
Lemma taps_spec (n_in n_out k : nat) :
  (1 <= n_in)%nat -> (k < n_out)%nat ->
  exists t,
    Ndimage.taps n_in n_out k = Some t /\
    Ndimage.i0 t = Qfloor (Ndimage.coordinate n_in n_out k) /\
    (Ndimage.w1 t ==
       Ndimage.coordinate n_in n_out k
       - inject_Z (Qfloor (Ndimage.coordinate n_in n_out k)))%Q /\
    (Ndimage.w0 t == 1 - Ndimage.w1 t)%Q /\
    (Ndimage.i1 t =
       Z.min (Qfloor (Ndimage.coordinate n_in n_out k) + 1) (Z.of_nat n_in - 1)
     \/ (Ndimage.w1 t == 0)%Q).
Proof.
  intros Hin Hk.
  destruct (coordinate_bounds n_in n_out k Hin Hk) as [H0 H1].
  pose proof (floor_coordinate_bounds n_in n_out k Hin Hk) as Hf.
  unfold Ndimage.taps.
  set (cc := Ndimage.coordinate n_in n_out k) in *.
  destruct (Qlt_le_dec cc 0) as [Hneg | _]; [ lra | ].
  destruct (Qlt_le_dec (inject_Z (Z.of_nat n_in - 1)) cc) as [Hbig | _];
    [ lra | ].
  eexists. split; [ reflexivity | ]. cbn [Ndimage.i0 Ndimage.i1 Ndimage.w0 Ndimage.w1].
  split; [ apply mirror_inside; lia | ].
  split; [ reflexivity | ]. split; [ reflexivity | ].
  destruct (Z.le_gt_cases (Qfloor cc + 1) (Z.of_nat n_in - 1)) as [Hle | Hgt].
  - left. rewrite mirror_inside by lia. lia.
  - right. assert (Hfl : Qfloor cc = Z.of_nat n_in - 1) by lia.
    pose proof (Qfloor_le cc) as Hlow. rewrite Hfl in *. lra.
Qed.

Lemma nth_Forall {A : Type} (P : A -> Prop) (l : list A) (d : A) (n : nat) :
  Forall P l -> P d -> P (nth n l d).
Proof.
  intros Hl Hd. revert n.
  induction Hl as [ | x l Hx _ IH ]; intros [ | n ]; cbn [nth]; auto.
Qed.

Lemma cell_finite (g : grid) (i j : Z) :
  grid_finite g -> Ndimage.cell g i j = Fin (Spec.qcell g i j).
Proof.
  intros Hg. unfold Spec.qcell.
  assert (H : F.isfinite (Ndimage.cell g i j) = true).
  { unfold Ndimage.cell.
    apply (nth_Forall (fun x => F.isfinite x = true)); [ | reflexivity ].
    apply (nth_Forall (Forall (fun x => F.isfinite x = true)));
      [ exact Hg | constructor ]. }
  destruct (Ndimage.cell g i j); (reflexivity || discriminate).
Qed.



(** One output cell of [zoom] is the bilinear interpolation of the
    input at the coordinates of its row and column. *)
Lemma sample_bilinear (g : grid) (h w oh ow i j : nat) :
  has_shape h w g -> grid_finite g ->
  (1 <= h)%nat -> (1 <= w)%nat -> (i < oh)%nat -> (j < ow)%nat ->
  F.equiv (Ndimage.sample g (Ndimage.taps h oh i) (Ndimage.taps w ow j))
          (Fin (Spec.bilinear g (Ndimage.coordinate h oh i)
                              (Ndimage.coordinate w ow j))).
Proof.
  intros [Hlen Hrows] Hg Hh Hw Hi Hj.
  destruct (taps_spec h oh i Hh Hi) as (ty & -> & Hy0 & Hyt & Hyw & Hy1).
  destruct (taps_spec w ow j Hw Hj) as (tx & -> & Hx0 & Hxt & Hxw & Hx1).
  assert (Hhd : length (hd [] g) = w).
  { destruct g as [ | row g ]; [ cbn in Hlen; lia | ].
    inversion Hrows; subst. reflexivity. }
  unfold Ndimage.sample, Ndimage.weighted. rewrite !(cell_finite g) by exact Hg.
  cbn [F.mul F.add F.equiv]. unfold Spec.bilinear.
  rewrite Hlen, Hhd, Hy0, Hx0.
  set (cy := Ndimage.coordinate h oh i) in *.
  set (cx := Ndimage.coordinate w ow j) in *.
  rewrite Hyw, Hxw.
  destruct Hy1 as [-> | Hy1], Hx1 as [-> | Hx1].
  - rewrite Hyt, Hxt. ring.
  - rewrite <- Hxt. rewrite Hx1. rewrite Hyt. ring.
  - rewrite <- Hyt. rewrite Hy1. rewrite Hxt. ring.
  - rewrite <- Hyt, <- Hxt. rewrite Hy1, Hx1. ring.
Qed.

Lemma has_shape_hd {A : Type} (h w : nat) (g : list (list A)) :
  has_shape h w g -> (1 <= h)%nat -> length (hd [] g) = w.
Proof.
  intros [Hlen Hrows] Hh.
  destruct g as [ | row g ]; [ cbn in Hlen; lia | ].
  inversion Hrows; subst. reflexivity.
Qed.


(** [zoom] with the factors [oh / h] and [ow / w] on an [h x w] grid. *)
Lemma zoom_exact (g : grid) (h w oh ow : nat) :
  has_shape h w g -> (1 <= h)%nat -> (1 <= w)%nat ->
  Ndimage.zoom g (inject_Z (Z.of_nat oh) / inject_Z (Z.of_nat h),
                  inject_Z (Z.of_nat ow) / inject_Z (Z.of_nat w))%Q =
  map (fun i =>
         map (fun j => Ndimage.sample g (Ndimage.taps h oh i)
                                        (Ndimage.taps w ow j))
             (seq 0 ow))
      (seq 0 oh).
Proof.
  intros Hg Hh Hw.
  unfold Ndimage.zoom. cbn [fst snd].
  rewrite (proj1 Hg), (has_shape_hd h w g Hg Hh).
  rewrite !output_len_exact by lia. reflexivity.
Qed.

(** What [resize] of dem_processor.py returns on an [h x w] grid. *)
Lemma resize_zoom (e g : grid) (h w T : nat) :
  has_shape h w e -> has_shape h w g -> (1 <= h)%nat -> (1 <= w)%nat ->
  DemProcessor.resize e g (Z.of_nat T) =
  Ok (map (fun i =>
             map (fun j => Ndimage.sample g (Ndimage.taps h T i)
                                            (Ndimage.taps w T j))
                 (seq 0 T))
          (seq 0 T)).
Proof.
  intros He Hg Hh Hw.
  unfold DemProcessor.resize.
  rewrite (proj1 He), (has_shape_hd h w e He Hh).
  unfold py_div.
  destruct h as [ | h' ]; [ lia | ]. destruct w as [ | w' ]; [ lia | ].
  cbn [mbind result_bind]. f_equal.
  apply (zoom_exact g (S h') (S w') T T); assumption.
Qed.

(** What [resize_heightmap] of image_utils.py returns. *)
Lemma resize_heightmap_zoom (g : grid) (h w oh ow : nat) :
  has_shape h w g -> (1 <= h)%nat -> (1 <= w)%nat ->
  ImageUtils.resize_heightmap g (Z.of_nat ow, Z.of_nat oh) =
  Ok (map (fun i =>
             map (fun j => Ndimage.sample g (Ndimage.taps h oh i)
                                            (Ndimage.taps w ow j))
                 (seq 0 ow))
          (seq 0 oh)).
Proof.
  intros Hg Hh Hw.
  unfold ImageUtils.resize_heightmap. cbn [fst snd].
  rewrite (proj1 Hg), (has_shape_hd h w g Hg Hh).
  unfold py_div.
  destruct h as [ | h' ]; [ lia | ]. destruct w as [ | w' ]; [ lia | ].
  cbn [mbind result_bind]. f_equal.
  apply (zoom_exact g (S h') (S w') oh ow); assumption.
Qed.











(* ================================================================== *)
(** * Further properties of the code *)

(** ** File names *)

Lemma is_dot_lower_char (c : ascii) :
  Routes.is_dot (Routes.lower_char c) = Routes.is_dot c.
Proof.
  destruct c as [[] [] [] [] [] [] [] []]; reflexivity.
Qed.

Lemma contains_dot_lower (s : string) :
  Routes.contains_dot (Routes.lower s) = Routes.contains_dot s.
Proof.
  induction s as [ | c s IH ]; [ reflexivity | ].
  cbn [Routes.lower Routes.contains_dot]. rewrite is_dot_lower_char, IH.
  reflexivity.
Qed.

Lemma is_dot_true (c : ascii) : Routes.is_dot c = true -> c = "."%char.
Proof. unfold Routes.is_dot. apply Ascii.eqb_eq. Qed.

Lemma rsplit_dot_none (s : string) :
  Routes.rsplit_dot s = None <-> Routes.contains_dot s = false.
Proof.
  induction s as [ | c s IH ]; [ split; reflexivity | ].
  cbn [Routes.rsplit_dot Routes.contains_dot].
  destruct (Routes.rsplit_dot s) as [[h t] | ].
  - split; [ discriminate | ].
    intros H. apply orb_false_iff in H as [_ H]. apply IH in H. discriminate.
  - rewrite (proj1 IH eq_refl), orb_false_r.
    destruct (Routes.is_dot c); split; (reflexivity || discriminate).
Qed.

Lemma rsplit_dot_some (s h t : string) :
  Routes.rsplit_dot s = Some (h, t) ->
  s = h +:+ "." +:+ t /\ Routes.contains_dot t = false.
Proof.
  revert h. induction s as [ | c s IH ]; intros h H; [ discriminate | ].
  cbn [Routes.rsplit_dot] in H.
  destruct (Routes.rsplit_dot s) as [[h' t'] | ] eqn:E.
  - injection H as <- <-. destruct (IH h' eq_refl) as [-> Ht].
    split; [ reflexivity | exact Ht ].
  - destruct (Routes.is_dot c) eqn:Hc; [ | discriminate ].
    injection H as <- <-. apply is_dot_true in Hc. subst c.
    split; [ reflexivity | apply rsplit_dot_none, E ].
Qed.

Lemma rsplit_dot_last (h t : string) :
  Routes.contains_dot t = false ->
  Routes.rsplit_dot (h +:+ "." +:+ t) = Some (h, t).
Proof.
  intros Ht. induction h as [ | c h IH ].
  - unfold String.app. cbn [String.append Routes.rsplit_dot].
    rewrite (proj2 (rsplit_dot_none t) Ht). reflexivity.
  - change (String c h +:+ "." +:+ t) with (String c (h +:+ "." +:+ t)).
    cbn [Routes.rsplit_dot]. rewrite IH. reflexivity.
Qed.

Lemma allowed_extension (e : string) :
  existsb (String.eqb e) Routes.ALLOWED_EXTENSIONS = true <->
  e = "tif" \/ e = "tiff".
Proof.
  cbn [existsb Routes.ALLOWED_EXTENSIONS]. rewrite orb_false_r, orb_true_iff.
  rewrite !String.eqb_eq. reflexivity.
Qed.

(** X1.  [allowed_file] accepts exactly the names [base.ext] whose part
    after the last dot is [tif] or [tiff] in any mix of upper and lower
    case; a name without a dot is refused. *)
Theorem allowed_file_spec (filename : string) :
  Routes.allowed_file filename = true <->
  exists base ext,
    filename = base +:+ "." +:+ ext /\
    (Routes.lower ext = "tif" \/ Routes.lower ext = "tiff").
Proof.
  unfold Routes.allowed_file, Routes.rsplit1. split.
  - intros H. apply andb_true_iff in H as [Hdot Hext].
    destruct (Routes.rsplit_dot filename) as [[h t] | ] eqn:E.
    + destruct (rsplit_dot_some _ _ _ E) as [-> _].
      exists h, t. split; [ reflexivity | ].
      cbn [nth] in Hext. apply allowed_extension, Hext.
    + apply rsplit_dot_none in E. congruence.
  - intros (base & ext & -> & Hext).
    assert (Hfree : Routes.contains_dot ext = false).
    { rewrite <- contains_dot_lower. destruct Hext as [-> | ->]; reflexivity. }
    rewrite (rsplit_dot_last base ext Hfree). cbn [nth].
    apply andb_true_iff. split.
    + destruct (Routes.contains_dot (base +:+ "." +:+ ext)) eqn:E;
        [ reflexivity | ].
      apply rsplit_dot_none in E.
      rewrite (rsplit_dot_last base ext Hfree) in E. discriminate.
    + apply allowed_extension, Hext.
Qed.

Example allowed_file_cases :
  Routes.allowed_file "srtm.TIF" = true /\
  Routes.allowed_file "srtm.tif.exe" = false /\
  Routes.allowed_file "srtm.exe.Tiff" = true /\
  Routes.allowed_file "tif" = false.
Proof. repeat split; reflexivity. Qed.

(** ** The stored files *)

Lemma dem_paths_differ (fid : string) :
  Os.path_join Backend.UPLOAD_FOLDER ("dem_" +:+ fid +:+ ".tif") <>
  Os.path_join Backend.UPLOAD_FOLDER ("dem_" +:+ fid +:+ "_heightmap.png").
Proof.
  unfold Os.path_join. intros H.
  repeat (apply String.app_inj in H). discriminate H.
Qed.

Lemma dem_names_differ (fid : string) :
  "dem_" +:+ fid +:+ ".tif" <> "dem_" +:+ fid +:+ "_heightmap.png".
Proof.
  intros H. repeat (apply String.app_inj in H). discriminate H.
Qed.

(** X2.  [cleanup] for a present file id answers 200, leaves neither of
    the two files of that id in the store, reports a name as deleted
    exactly when its file was there, and changes no other path. *)
Theorem cleanup_frame (fid : string) (w : world) :
  fid <> "" ->
  exists message deleted,
    fst (Backend.cleanup (Some fid) w) =
      Backend.Response 200 (Backend.JsonCleanup message deleted) /\
    files (snd (Backend.cleanup (Some fid) w))
      !! Os.path_join Backend.UPLOAD_FOLDER ("dem_" +:+ fid +:+ ".tif") = None /\
    files (snd (Backend.cleanup (Some fid) w))
      !! Os.path_join Backend.UPLOAD_FOLDER ("dem_" +:+ fid +:+ "_heightmap.png")
      = None /\
    (In ("dem_" +:+ fid +:+ ".tif") deleted <->
     is_Some (files w
                !! Os.path_join Backend.UPLOAD_FOLDER ("dem_" +:+ fid +:+ ".tif"))) /\
    (In ("dem_" +:+ fid +:+ "_heightmap.png") deleted <->
     is_Some (files w
                !! Os.path_join Backend.UPLOAD_FOLDER
                     ("dem_" +:+ fid +:+ "_heightmap.png"))) /\
    forall q,
      q <> Os.path_join Backend.UPLOAD_FOLDER ("dem_" +:+ fid +:+ ".tif") ->
      q <> Os.path_join Backend.UPLOAD_FOLDER ("dem_" +:+ fid +:+ "_heightmap.png") ->
      files (snd (Backend.cleanup (Some fid) w)) !! q = files w !! q.
Proof.
  intros Hfid.
  destruct (cleanup_files fid w Hfid) as [tr ->]. cbn [fst snd files].
  pose proof (dem_paths_differ fid) as Hp.
  pose proof (dem_names_differ fid) as Hn.
  set (p1 := Os.path_join _ ("dem_" +:+ fid +:+ ".tif")) in *.
  set (p2 := Os.path_join _ ("dem_" +:+ fid +:+ "_heightmap.png")) in *.
  eexists _, _. split; [ reflexivity | ].
  rewrite (lookup_delete_ne (files w) p1 p2) by exact Hp.
  split; [ rewrite lookup_delete_ne by congruence; apply lookup_delete_eq | ].
  split; [ apply lookup_delete_eq | ].
  split; [ | split ].
  - split.
    + intros Hin. destruct (files w !! p1); [ eauto | ]. exfalso.
      destruct (files w !! p2); cbn [app In] in Hin; intuition congruence.
    + intros [f Hf]. rewrite Hf. left. reflexivity.
  - split.
    + intros Hin. destruct (files w !! p2); [ eauto | ]. exfalso.
      destruct (files w !! p1); cbn [app In] in Hin; intuition congruence.
    + intros [f Hf]. rewrite Hf. apply in_or_app. right. left. reflexivity.
  - intros q H1 H2. rewrite !lookup_delete_ne by congruence. reflexivity.
Qed.

Lemma cleanup_frame_witness :
  exists message deleted,
    fst (Backend.cleanup (Some "x") Examples.store) =
      Backend.Response 200 (Backend.JsonCleanup message deleted) /\
    files (snd (Backend.cleanup (Some "x") Examples.store))
      !! Os.path_join Backend.UPLOAD_FOLDER ("dem_" +:+ "x" +:+ ".tif") = None /\
    files (snd (Backend.cleanup (Some "x") Examples.store))
      !! Os.path_join Backend.UPLOAD_FOLDER ("dem_" +:+ "x" +:+ "_heightmap.png")
      = None /\
    (In ("dem_" +:+ "x" +:+ ".tif") deleted <->
     is_Some (files Examples.store
                !! Os.path_join Backend.UPLOAD_FOLDER ("dem_" +:+ "x" +:+ ".tif"))) /\
    (In ("dem_" +:+ "x" +:+ "_heightmap.png") deleted <->
     is_Some (files Examples.store
                !! Os.path_join Backend.UPLOAD_FOLDER
                     ("dem_" +:+ "x" +:+ "_heightmap.png"))) /\
    forall q,
      q <> Os.path_join Backend.UPLOAD_FOLDER ("dem_" +:+ "x" +:+ ".tif") ->
      q <> Os.path_join Backend.UPLOAD_FOLDER ("dem_" +:+ "x" +:+ "_heightmap.png") ->
      files (snd (Backend.cleanup (Some "x") Examples.store)) !! q =
      files Examples.store !! q.
Proof. apply (cleanup_frame "x" Examples.store). discriminate. Defined.

(** ** Strings *)

Lemma str_app_cons (c : ascii) (s t : string) :
  String c s +:+ t = String c (s +:+ t).
Proof. reflexivity. Qed.

Lemma str_app_nil_r (s : string) : s +:+ "" = s.
Proof.
  induction s as [ | c s IH ]; [ reflexivity | ].
  rewrite str_app_cons, IH. reflexivity.
Qed.

Lemma str_app_assoc (s t u : string) : (s +:+ t) +:+ u = s +:+ t +:+ u.
Proof.
  induction s as [ | c s IH ]; [ reflexivity | ].
  rewrite !str_app_cons, IH. reflexivity.
Qed.

Lemma str_length_app (s t : string) :
  String.length (s +:+ t) = (String.length s + String.length t)%nat.
Proof.
  induction s as [ | c s IH ]; [ reflexivity | ].
  rewrite str_app_cons. cbn [String.length]. rewrite IH. reflexivity.
Qed.

Lemma dot_free_app (s t : string) :
  dot_free (s +:+ t) = dot_free s && dot_free t.
Proof.
  unfold dot_free. induction s as [ | c s IH ]; [ reflexivity | ].
  rewrite str_app_cons. cbn [Routes.contains_dot].
  rewrite !negb_orb, IH, andb_assoc. reflexivity.
Qed.

Lemma prefix_tif_other (c : ascii) (s : string) :
  Routes.is_dot c = false -> String.prefix ".tif" (String c s) = false.
Proof.
  intros Hc. cbn [String.prefix].
  destruct (ascii_dec "." c) as [<- | _]; [ discriminate Hc | reflexivity ].
Qed.

(** Replacing [".tif"] in [p.tif], when [p] has no dot, rewrites the
    extension and nothing else. *)
Lemma str_replace_fuel_tif (new p : string) (fuel : nat) :
  dot_free p = true -> (String.length p + 2 <= fuel)%nat ->
  str_replace_fuel fuel ".tif" new (p +:+ ".tif") = p +:+ new.
Proof.
  revert fuel. induction p as [ | c p IH ]; intros fuel Hfree Hfuel.
  - destruct fuel as [ | [ | fuel ] ]; cbn in Hfuel; try lia.
    cbn. rewrite str_app_nil_r. reflexivity.
  - unfold dot_free in Hfree. cbn [Routes.contains_dot] in Hfree.
    apply negb_true_iff, orb_false_iff in Hfree as [Hc Hp].
    destruct fuel as [ | fuel ]; cbn [String.length] in Hfuel; [ lia | ].
    rewrite !str_app_cons. cbn [str_replace_fuel].
    rewrite (prefix_tif_other c _ Hc). f_equal.
    apply IH; [ unfold dot_free; rewrite Hp; reflexivity | lia ].
Qed.

Lemma heightmap_path (fid : string) :
  dot_free fid = true ->
  str_replace ".tif" "_heightmap.png"
    (Os.path_join Backend.UPLOAD_FOLDER ("dem_" +:+ fid +:+ ".tif")) =
  Os.path_join Backend.UPLOAD_FOLDER ("dem_" +:+ fid +:+ "_heightmap.png").
Proof.
  intros Hfree. unfold Os.path_join, str_replace.
  set (p := Backend.UPLOAD_FOLDER +:+ "/" +:+ "dem_" +:+ fid).
  assert (H1 : Backend.UPLOAD_FOLDER +:+ "/" +:+ "dem_" +:+ fid +:+ ".tif"
               = p +:+ ".tif")
    by (unfold p; rewrite !str_app_assoc; reflexivity).
  assert (H2 : Backend.UPLOAD_FOLDER +:+ "/" +:+ "dem_" +:+ fid +:+ "_heightmap.png"
               = p +:+ "_heightmap.png")
    by (unfold p; rewrite !str_app_assoc; reflexivity).
  rewrite H1, H2. apply str_replace_fuel_tif.
  - unfold p. rewrite !dot_free_app, Hfree. reflexivity.
  - rewrite str_length_app. cbn [String.length]. lia.
Qed.

(** ** The route [process_dem] *)

Lemma existsb_eqb_true (z : Z) (l : list Z) :
  In z l -> existsb (Z.eqb z) l = true.
Proof.
  intros Hz. apply existsb_exists. exists z. split; [ exact Hz | apply Z.eqb_refl ].
Qed.



(** One successful run of the pipeline on a stored raster: one read,
    one write, and the heightmap beside the raster. *)
Lemma process_dem_to_heightmap_run
      (tri : Interpolate.triangulation) (resize : PIL.resizer)
      (fid : string) (resolution : Z) (w : world) (r : raster)
      (image : PIL.image_I16) :
  dot_free fid = true ->
  files w !! Os.path_join Backend.UPLOAD_FOLDER ("dem_" +:+ fid +:+ ".tif")
    = Some (GeoTIFF r) ->
  Backend.heightmap_of tri resize r resolution = Ok image ->
  Backend.process_dem_to_heightmap tri resize
    (Os.path_join Backend.UPLOAD_FOLDER ("dem_" +:+ fid +:+ ".tif"))
    resolution w =
  (Ok (Os.path_join Backend.UPLOAD_FOLDER ("dem_" +:+ fid +:+ "_heightmap.png")),
   World
     (<[ Os.path_join Backend.UPLOAD_FOLDER ("dem_" +:+ fid +:+ "_heightmap.png")
         := PNG16 image ]> (files w))
     (trace w ++
      [FsOpen (Os.path_join Backend.UPLOAD_FOLDER ("dem_" +:+ fid +:+ ".tif"));
       FsWrite (Os.path_join Backend.UPLOAD_FOLDER
                  ("dem_" +:+ fid +:+ "_heightmap.png"))])).
Proof.
  intros Hfree Hfile Himg.
  unfold Backend.process_dem_to_heightmap, Os.rasterio_open, Os.log.
  cbn [files trace]. rewrite Hfile, Himg, (heightmap_path fid Hfree).
  unfold Os.save. cbn [files trace].
  rewrite <- !app_assoc. reflexivity.
Qed.



(** X5.  After a successful [process_dem], [cleanup] for the same id
    deletes both the raster and the heightmap and reports both names;
    what is left is the original store without the raster. *)
Theorem process_then_cleanup
        (tri : Interpolate.triangulation) (resize : PIL.resizer)
        (fid : string) (resolution : Z) (w : world) (r : raster)
        (image : PIL.image_I16) :
  fid <> "" -> dot_free fid = true ->
  In resolution Backend.supported_resolutions ->
  files w !! Os.path_join Backend.UPLOAD_FOLDER ("dem_" +:+ fid +:+ ".tif")
    = Some (GeoTIFF r) ->
  Backend.heightmap_of tri resize r resolution = Ok image ->
  fst (Backend.cleanup (Some fid)
         (snd (Backend.process_dem tri resize
                 (Backend.ProcessRequest (Some fid) (Some resolution)) w))) =
  Backend.Response 200
    (Backend.JsonCleanup "Cleaned up 2 file(s)"
       ["dem_" +:+ fid +:+ ".tif"; "dem_" +:+ fid +:+ "_heightmap.png"]) /\
  files (snd (Backend.cleanup (Some fid)
                (snd (Backend.process_dem tri resize
                        (Backend.ProcessRequest (Some fid) (Some resolution)) w)))) =
  delete (Os.path_join Backend.UPLOAD_FOLDER ("dem_" +:+ fid +:+ "_heightmap.png"))
    (delete (Os.path_join Backend.UPLOAD_FOLDER ("dem_" +:+ fid +:+ ".tif"))
       (files w)).
Proof.
  intros Hfid Hfree Hres Hfile Himg.
  unfold Backend.process_dem. cbn [Backend.pr_file_id Backend.pr_resolution].
  rewrite (truthy_nonempty fid Hfid). cbn [negb default from_option]. unfold id.
  rewrite (existsb_eqb_true _ _ Hres). cbn [negb].
  unfold Os.path_exists.
  rewrite bool_decide_eq_true_2 by (rewrite Hfile; eauto).
  rewrite (process_dem_to_heightmap_run tri resize fid resolution
             (Os.log (FsExists _) w) r image Hfree Hfile Himg).
  cbn [Os.log files trace snd].
  pose proof (dem_paths_differ fid) as Hp.
  set (p1 := Os.path_join _ ("dem_" +:+ fid +:+ ".tif")) in *.
  set (p2 := Os.path_join _ ("dem_" +:+ fid +:+ "_heightmap.png")) in *.
  match goal with
  | |- context [ Backend.cleanup (Some fid) ?w0 ] =>
      destruct (cleanup_files fid w0 Hfid) as [tr ->]
  end.
  cbn [fst snd files]. fold p1 p2.
  rewrite (lookup_insert_ne (files w) p2 p1) by congruence.
  rewrite Hfile.
  rewrite (delete_insert_ne (files w) p1 p2) by exact Hp.
  rewrite lookup_insert_eq, delete_insert_eq.
  split; reflexivity.
Qed.

Lemma process_then_cleanup_witness :
  fst (Backend.cleanup (Some "x")
         (snd (Backend.process_dem Interpolate.single_triangle Examples.nearest
                 (Backend.ProcessRequest (Some "x") (Some 129))
                 Samples.clean_store))) =
  Backend.Response 200
    (Backend.JsonCleanup "Cleaned up 2 file(s)"
       ["dem_" +:+ "x" +:+ ".tif"; "dem_" +:+ "x" +:+ "_heightmap.png"]) /\
  files (snd (Backend.cleanup (Some "x")
                (snd (Backend.process_dem Interpolate.single_triangle
                        Examples.nearest
                        (Backend.ProcessRequest (Some "x") (Some 129))
                        Samples.clean_store)))) =
  delete (Os.path_join Backend.UPLOAD_FOLDER ("dem_" +:+ "x" +:+ "_heightmap.png"))
    (delete (Os.path_join Backend.UPLOAD_FOLDER ("dem_" +:+ "x" +:+ ".tif"))
       (files Samples.clean_store)).
Proof.
  apply (process_then_cleanup Interpolate.single_triangle Examples.nearest
           "x" 129 Samples.clean_store Samples.clean Samples.clean_heightmap).
  - discriminate.
  - reflexivity.
  - vm_compute. tauto.
  - reflexivity.
  - vm_compute. reflexivity.
Defined.

(** X6.  Processing the same raster twice gives the same answer and the
    same stored files as processing it once: the heightmap is written
    over itself and the raster is not touched. *)
Theorem process_dem_twice
        (tri : Interpolate.triangulation) (resize : PIL.resizer)
        (fid : string) (resolution : Z) (w : world) (r : raster)
        (image : PIL.image_I16) :
  fid <> "" -> dot_free fid = true ->
  In resolution Backend.supported_resolutions ->
  files w !! Os.path_join Backend.UPLOAD_FOLDER ("dem_" +:+ fid +:+ ".tif")
    = Some (GeoTIFF r) ->
  Backend.heightmap_of tri resize r resolution = Ok image ->
  fst (Backend.process_dem tri resize
         (Backend.ProcessRequest (Some fid) (Some resolution))
         (snd (Backend.process_dem tri resize
                 (Backend.ProcessRequest (Some fid) (Some resolution)) w))) =
  fst (Backend.process_dem tri resize
         (Backend.ProcessRequest (Some fid) (Some resolution)) w) /\
  files (snd (Backend.process_dem tri resize
                (Backend.ProcessRequest (Some fid) (Some resolution))
                (snd (Backend.process_dem tri resize
                        (Backend.ProcessRequest (Some fid) (Some resolution)) w)))) =
  files (snd (Backend.process_dem tri resize
                (Backend.ProcessRequest (Some fid) (Some resolution)) w)).
Proof.
  intros Hfid Hfree Hres Hfile Himg.
  pose proof (dem_paths_differ fid) as Hp.
  assert (Hrun : forall w0,
    files w0 !! Os.path_join Backend.UPLOAD_FOLDER ("dem_" +:+ fid +:+ ".tif")
      = Some (GeoTIFF r) ->
    exists tr,
      Backend.process_dem tri resize
        (Backend.ProcessRequest (Some fid) (Some resolution)) w0 =
      (Backend.Response 200
         (Backend.Attachment
            (Os.path_join Backend.UPLOAD_FOLDER
               ("dem_" +:+ fid +:+ "_heightmap.png"))
            ("heightmap_" +:+ fid +:+ ".png")),
       World
         (<[ Os.path_join Backend.UPLOAD_FOLDER
               ("dem_" +:+ fid +:+ "_heightmap.png") := PNG16 image ]>
            (files w0)) tr)).
  { intros w0 Hfile0.
    unfold Backend.process_dem.
    cbn [Backend.pr_file_id Backend.pr_resolution].
    rewrite (truthy_nonempty fid Hfid).
    cbn [negb default from_option]. unfold id.
    rewrite (existsb_eqb_true _ _ Hres). cbn [negb].
    unfold Os.path_exists.
    rewrite bool_decide_eq_true_2 by (rewrite Hfile0; eauto).
    rewrite (process_dem_to_heightmap_run tri resize fid resolution
               (Os.log (FsExists _) w0) r image Hfree Hfile0 Himg).
    cbn [Os.log files trace]. eexists. reflexivity. }
  destruct (Hrun w Hfile) as [tr1 ->]. cbn [fst snd].
  destruct (Hrun (World (<[ Os.path_join Backend.UPLOAD_FOLDER
                              ("dem_" +:+ fid +:+ "_heightmap.png")
                            := PNG16 image ]> (files w)) tr1)) as [tr2 ->].
  - cbn [files]. rewrite lookup_insert_ne by congruence. exact Hfile.
  - cbn [fst snd files]. split; [ reflexivity | apply insert_insert_eq ].
Qed.

Lemma process_dem_twice_witness :
  fst (Backend.process_dem Interpolate.single_triangle Examples.nearest
         (Backend.ProcessRequest (Some "x") (Some 129))
         (snd (Backend.process_dem Interpolate.single_triangle Examples.nearest
                 (Backend.ProcessRequest (Some "x") (Some 129))
                 Samples.clean_store))) =
  fst (Backend.process_dem Interpolate.single_triangle Examples.nearest
         (Backend.ProcessRequest (Some "x") (Some 129)) Samples.clean_store) /\
  files (snd (Backend.process_dem Interpolate.single_triangle Examples.nearest
                (Backend.ProcessRequest (Some "x") (Some 129))
                (snd (Backend.process_dem Interpolate.single_triangle
                        Examples.nearest
                        (Backend.ProcessRequest (Some "x") (Some 129))
                        Samples.clean_store)))) =
  files (snd (Backend.process_dem Interpolate.single_triangle Examples.nearest
                (Backend.ProcessRequest (Some "x") (Some 129))
                Samples.clean_store)).
Proof.
  apply (process_dem_twice Interpolate.single_triangle Examples.nearest
           "x" 129 Samples.clean_store Samples.clean Samples.clean_heightmap).
  - discriminate.
  - reflexivity.
  - vm_compute. tauto.
  - reflexivity.
  - vm_compute. reflexivity.
Defined.

(** ** The route [process_dem_info] *)

Lemma where_eq_nan_no_inf (v : float64) (g : grid) :
  grid_no_inf g -> grid_no_inf (Np.where_eq_nan v g).
Proof.
  unfold grid_no_inf, Np.where_eq_nan, Np.map2d. intros Hg.
  induction Hg as [ | row g Hrow _ IH ]; constructor; [ | exact IH ].
  induction Hrow as [ | x row Hx _ IHrow ]; constructor; [ | exact IHrow ].
  destruct (F.eqb x v); [ reflexivity | exact Hx ].
Qed.

Lemma mark_nodata_no_inf (r : raster) :
  grid_no_inf (data r) -> grid_no_inf (Backend.mark_nodata r).
Proof.
  unfold Backend.mark_nodata. destruct (nodata r); [ | tauto ].
  apply where_eq_nan_no_inf.
Qed.

(** [np.nanmin] and [np.nanmax] of a grid without infinite cells that
    has a finite cell. *)
Lemma nan_extrema (g : grid) (a : Q) (rest : list Q) :
  grid_no_inf g -> Spec.finite_cells g = a :: rest ->
  Np.nanmin g = Ok (Fin (fold_left Qmin rest a)) /\
  Np.nanmax g = Ok (Fin (fold_left Qmax rest a)).
Proof.
  intros Hg Hfc. unfold Np.nanmin, Np.nanmax, Np.nanreduce.
  rewrite (drop_nan_finite_cells (concat g)) by (apply Forall_concat_grid, Hg).
  fold (Spec.finite_cells g). rewrite Hfc.
  destruct (concat g) as [ | x xs ] eqn:Hc.
  - unfold Spec.finite_cells in Hfc. rewrite Hc in Hfc. discriminate.
  - cbn [map]. rewrite fold_minimum_Fin, fold_maximum_Fin. split; reflexivity.
Qed.

(** X7.  For a stored raster without infinite cells that has at least
    one cell holding a number other than the sentinel, [process_dem_info]
    answers 200 with the least and the greatest such cell as
    [min_elevation] and [max_elevation], the shape of the band as
    [size], and leaves the stored files as they were. *)
Theorem process_dem_info_extrema
        (src_georef : raster -> Routes.georef) (fid : string) (w : world)
        (r : raster) :
  fid <> "" ->
  files w !! Os.path_join Backend.UPLOAD_FOLDER ("dem_" +:+ fid +:+ ".tif")
    = Some (GeoTIFF r) ->
  grid_no_inf (data r) ->
  Spec.finite_cells (Backend.mark_nodata r) <> [] ->
  exists mn mx,
    Spec.is_minimum mn (Backend.mark_nodata r) /\
    Spec.is_maximum mx (Backend.mark_nodata r) /\
    fst (Routes.process_dem_info src_georef (Some fid) w) =
      Routes.InfoResponse 200
        (Routes.Info (Fin mn) (Fin mx)
           [length (data r); length (hd [] (data r))]
           (Routes.bounds (src_georef r)) (Routes.crs (src_georef r))) /\
    files (snd (Routes.process_dem_info src_georef (Some fid) w)) = files w.
Proof.
  intros Hfid Hfile Hinf Hfc.
  destruct (Spec.finite_cells (Backend.mark_nodata r)) as [ | a rest ] eqn:Hcells;
    [ congruence | ].
  destruct (extrema_spec _ a rest Hcells) as (Hmin & Hmax & _).
  destruct (nan_extrema _ a rest (mark_nodata_no_inf r Hinf) Hcells)
    as [Hnmin Hnmax].
  exists (fold_left Qmin rest a), (fold_left Qmax rest a).
  split; [ exact Hmin | ]. split; [ exact Hmax | ].
  unfold Routes.process_dem_info.
  rewrite (truthy_nonempty fid Hfid). cbn [negb default from_option]. unfold id.
  unfold Os.path_exists.
  rewrite bool_decide_eq_true_2 by (rewrite Hfile; eauto).
  unfold Os.rasterio_open, Os.log. cbn [files trace]. rewrite Hfile.
  rewrite Hnmin, Hnmax. cbn [fst snd files].
  assert (Hshape : length (Backend.mark_nodata r) = length (data r) /\
                   length (hd [] (Backend.mark_nodata r))
                   = length (hd [] (data r))).
  { unfold Backend.mark_nodata, Np.where_eq_nan, Np.map2d.
    destruct (nodata r); [ | split; reflexivity ].
    rewrite length_map. split; [ reflexivity | ].
    destruct (data r); [ reflexivity | cbn [map hd]; apply length_map ]. }
  destruct Hshape as [-> ->]. split; reflexivity.
Qed.

Lemma process_dem_info_extrema_witness :
  exists mn mx,
    Spec.is_minimum mn (Backend.mark_nodata Samples.holed) /\
    Spec.is_maximum mx (Backend.mark_nodata Samples.holed) /\
    fst (Routes.process_dem_info Samples.no_georef (Some "x") Samples.holed_store) =
      Routes.InfoResponse 200
        (Routes.Info (Fin mn) (Fin mx)
           [length (data Samples.holed); length (hd [] (data Samples.holed))]
           (Routes.bounds (Samples.no_georef Samples.holed))
           (Routes.crs (Samples.no_georef Samples.holed))) /\
    files (snd (Routes.process_dem_info Samples.no_georef (Some "x")
                  Samples.holed_store)) = files Samples.holed_store.
Proof.
  apply (process_dem_info_extrema Samples.no_georef "x" Samples.holed_store
           Samples.holed).
  - discriminate.
  - reflexivity.
  - repeat constructor.
  - discriminate.
Defined.

Example process_dem_info_holed :
  fst (Routes.process_dem_info Samples.no_georef (Some "x") Samples.holed_store) =
  Routes.InfoResponse 200
    (Routes.Info (of_Z 100) (of_Z 250) [2; 2]%nat (0, 0, 1, 1)%Q "EPSG:4326").
Proof. vm_compute. reflexivity. Qed.

(** X8.  [process_dem_info] only reads: whatever the request, the stored
    files are unchanged; and for a present file id it answers 404
    exactly when no file is stored under [temp/dem_<id>.tif]. *)
Theorem process_dem_info_read_only
        (src_georef : raster -> Routes.georef) (file_id : option string)
        (w : world) :
  files (snd (Routes.process_dem_info src_georef file_id w)) = files w /\
  (Backend.truthy file_id = true ->
   (Routes.info_status (fst (Routes.process_dem_info src_georef file_id w)) = 404
    <->
    files w !! Os.path_join Backend.UPLOAD_FOLDER
                 ("dem_" +:+ default "" file_id +:+ ".tif") = None)).
Proof.
  unfold Routes.process_dem_info.
  destruct (Backend.truthy file_id); cbn [negb].
  2:{ split; [ reflexivity | discriminate ]. }
  unfold Os.path_exists.
  set (p := Os.path_join _ _).
  destruct (files w !! p) as [f | ] eqn:Hp.
  - rewrite bool_decide_eq_true_2 by eauto.
    unfold Os.rasterio_open, Os.log. cbn [files trace]. rewrite Hp.
    destruct f as [r | px | ];
      try (split; [ reflexivity | intros _; split; [ cbn; lia | discriminate ] ]).
    destruct (Np.nanmin _); try destruct (Np.nanmax _);
      (split; [ reflexivity | intros _; split; [ cbn; lia | discriminate ] ]).
  - rewrite bool_decide_eq_false_2 by (intros [? ?]; discriminate).
    split; [ reflexivity | intros _; split; reflexivity ].
Qed.

(** X9.  On a stored raster whose every cell is the sentinel,
    [process_dem_info] does not fail: it answers 200 with NaN as both
    extrema. *)
Theorem process_dem_info_all_missing
        (src_georef : raster -> Routes.georef) (fid : string) (w : world)
        (r : raster) (v : float64) :
  fid <> "" ->
  files w !! Os.path_join Backend.UPLOAD_FOLDER ("dem_" +:+ fid +:+ ".tif")
    = Some (GeoTIFF r) ->
  nodata r = Some v ->
  Forall (Forall (fun x => F.eqb x v = true)) (data r) ->
  concat (data r) <> [] ->
  exists size,
    fst (Routes.process_dem_info src_georef (Some fid) w) =
    Routes.InfoResponse 200
      (Routes.Info NaN NaN size
         (Routes.bounds (src_georef r)) (Routes.crs (src_georef r))).
Proof.
  intros Hfid Hfile Hv Hall Hne.
  assert (Hmark : Backend.mark_nodata r = Np.map2d (fun _ => NaN) (data r)).
  { unfold Backend.mark_nodata, Np.where_eq_nan. rewrite Hv.
    apply (map2d_ext_Forall (fun x => F.eqb x v = true)); [ exact Hall | ].
    intros x Hx. rewrite Hx. reflexivity. }
  unfold Routes.process_dem_info.
  rewrite (truthy_nonempty fid Hfid). cbn [negb default from_option]. unfold id.
  unfold Os.path_exists.
  rewrite bool_decide_eq_true_2 by (rewrite Hfile; eauto).
  unfold Os.rasterio_open, Os.log. cbn [files trace]. rewrite Hfile, Hmark.
  assert (Hnan : forall op, Np.nanreduce op (concat (Np.map2d (fun _ => NaN) (data r)))
                            = Ok NaN).
  { intros op. unfold Np.nanreduce, Np.map2d.
    assert (Hdrop : Np.drop_nan (concat (map (map (fun _ => NaN)) (data r))) = []).
    { clear. induction (data r) as [ | row g IH ]; [ reflexivity | ].
      cbn [map concat]. unfold Np.drop_nan in *. rewrite List.filter_app, IH.
      rewrite app_nil_r. induction row; [ reflexivity | assumption ]. }
    rewrite Hdrop.
    destruct (concat (map (map (fun _ => NaN)) (data r))) eqn:Hc; [ | reflexivity ].
    exfalso. apply Hne. clear -Hc.
    induction (data r) as [ | row g IH ]; [ reflexivity | ].
    cbn [map concat] in Hc. apply app_eq_nil in Hc as [Hrow Hrest].
    destruct row; [ | discriminate ]. cbn [concat app]. apply IH, Hrest. }
  unfold Np.nanmin, Np.nanmax. rewrite !Hnan.
  eexists. reflexivity.
Qed.

Lemma process_dem_info_all_missing_witness :
  exists size,
    fst (Routes.process_dem_info Samples.no_georef (Some "v") Samples.void_store) =
    Routes.InfoResponse 200
      (Routes.Info NaN NaN size
         (Routes.bounds (Samples.no_georef Examples.void))
         (Routes.crs (Samples.no_georef Examples.void))).
Proof.
  apply (process_dem_info_all_missing Samples.no_georef "v" Samples.void_store
           Examples.void (of_Z (-9999))).
  - discriminate.
  - reflexivity.
  - reflexivity.
  - repeat constructor.
  - discriminate.
Defined.

(** ** The route [download_dem] *)

(** X10.  When the latitude or the longitude is missing, or no API key
    is configured in the environment or given in the request,
    [download_dem] answers 400 or 500 without contacting the upstream
    service and without touching the store. *)
Theorem download_dem_guards
        (OPENTOPO_API_KEY : string) (cos_deg : float64 -> float64)
        (get : Routes.opentopo) (uuid4 : string)
        (data : Routes.download_request) (w : world) :
  Routes.latitude data = None \/ Routes.longitude data = None \/
  Backend.truthy (Routes.str_or OPENTOPO_API_KEY (Routes.api_key data)) = false ->
  snd (Routes.download_dem OPENTOPO_API_KEY cos_deg get uuid4 data w) = [] /\
  snd (fst (Routes.download_dem OPENTOPO_API_KEY cos_deg get uuid4 data w)) = w /\
  (Routes.download_status
     (fst (fst (Routes.download_dem OPENTOPO_API_KEY cos_deg get uuid4 data w)))
   = 400 \/
   Routes.download_status
     (fst (fst (Routes.download_dem OPENTOPO_API_KEY cos_deg get uuid4 data w)))
   = 500).
Proof.
  intros H. unfold Routes.download_dem.
  destruct (Routes.latitude data) as [lat | ], (Routes.longitude data) as [lon | ];
    try (cbn; auto; fail).
  destruct H as [H | [H | H]]; try discriminate.
  rewrite H. cbn. auto.
Qed.

Lemma download_dem_guards_witness :
  snd (Routes.download_dem "" Samples.flat_cos (Samples.always Samples.clean) "abc"
         (Routes.DownloadRequest (Some (of_Z 36)) (Some (of_Z (-112))) None None None)
         Samples.empty_store) = [] /\
  snd (fst (Routes.download_dem "" Samples.flat_cos (Samples.always Samples.clean)
              "abc"
              (Routes.DownloadRequest (Some (of_Z 36)) (Some (of_Z (-112)))
                 None None None)
              Samples.empty_store)) = Samples.empty_store /\
  (Routes.download_status
     (fst (fst (Routes.download_dem "" Samples.flat_cos
                  (Samples.always Samples.clean) "abc"
                  (Routes.DownloadRequest (Some (of_Z 36)) (Some (of_Z (-112)))
                     None None None)
                  Samples.empty_store)))
   = 400 \/
   Routes.download_status
     (fst (fst (Routes.download_dem "" Samples.flat_cos
                  (Samples.always Samples.clean) "abc"
                  (Routes.DownloadRequest (Some (of_Z 36)) (Some (of_Z (-112)))
                     None None None)
                  Samples.empty_store)))
   = 500).
Proof.
  apply (download_dem_guards "" Samples.flat_cos (Samples.always Samples.clean)
           "abc"
           (Routes.DownloadRequest (Some (of_Z 36)) (Some (of_Z (-112)))
              None None None)
           Samples.empty_store).
  right. right. reflexivity.
Defined.

(** X11.  After a download that answered 200, the answer carries the
    identifier that was drawn, exactly one upstream request was made,
    the only change to the store is the new file [temp/dem_<id>.tif],
    and (the identifier being non-empty) neither [process_dem] with a
    supported resolution nor [process_dem_info] answers 400 or 404 for
    that identifier. *)
Theorem download_then_process
        (OPENTOPO_API_KEY : string) (cos_deg : float64 -> float64)
        (get : Routes.opentopo) (uuid4 : string)
        (data : Routes.download_request) (w : world) :
  Routes.download_status
    (fst (fst (Routes.download_dem OPENTOPO_API_KEY cos_deg get uuid4 data w)))
  = 200 ->
  uuid4 <> "" ->
  exists params response size s n wst e,
    Routes.download_dem OPENTOPO_API_KEY cos_deg get uuid4 data w =
    (Routes.DownloadResponse 200
       (Routes.Downloaded uuid4 "DEM downloaded successfully" size s n wst e),
     World (<[ Os.path_join Backend.UPLOAD_FOLDER ("dem_" +:+ uuid4 +:+ ".tif")
               := Routes.content response ]> (files w))
           (trace w ++
            [FsWrite (Os.path_join Backend.UPLOAD_FOLDER
                        ("dem_" +:+ uuid4 +:+ ".tif"))]),
     [params]) /\
    get params = Some response /\
    (forall tri resize resolution,
       In resolution Backend.supported_resolutions ->
       let answer :=
         Backend.status
           (fst (Backend.process_dem tri resize
                   (Backend.ProcessRequest (Some uuid4) (Some resolution))
                   (snd (fst (Routes.download_dem OPENTOPO_API_KEY cos_deg get
                                uuid4 data w))))) in
       answer = 200 \/ answer = 500) /\
    (forall src_georef,
       let answer :=
         Routes.info_status
           (fst (Routes.process_dem_info src_georef (Some uuid4)
                   (snd (fst (Routes.download_dem OPENTOPO_API_KEY cos_deg get
                                uuid4 data w))))) in
       answer = 200 \/ answer = 500).
Proof.
  intros Hok Huuid. unfold Routes.download_dem in *.
  destruct (Routes.latitude data) as [lat | ], (Routes.longitude data) as [lon | ];
    try (cbn in Hok; discriminate Hok).
  destruct (Backend.truthy (Routes.str_or OPENTOPO_API_KEY (Routes.api_key data)));
    cbn [negb] in *; [ | cbn in Hok; discriminate Hok ].
  match goal with
  | H : context [ get ?p ] |- _ => set (params := p) in *
  end.
  destruct (get params) as [response | ] eqn:Hget;
    [ | cbn in Hok; discriminate Hok ].
  unfold Routes.write_file. cbn [fst snd].
  set (path := Os.path_join Backend.UPLOAD_FOLDER ("dem_" +:+ uuid4 +:+ ".tif")).
  eexists params, response, _, _, _, _, _.
  split; [ reflexivity | ]. split; [ exact Hget | ].
  assert (Hfile : (<[path := Routes.content response]> (files w)) !! path
                  = Some (Routes.content response)) by apply lookup_insert_eq.
  split.
  - intros tri resize resolution Hres. cbv zeta.
    unfold Backend.process_dem. cbn [Backend.pr_file_id Backend.pr_resolution].
    rewrite (truthy_nonempty uuid4 Huuid).
    cbn [negb default from_option]. unfold id.
    rewrite (existsb_eqb_true _ _ Hres). cbn [negb].
    unfold Os.path_exists. cbn [files]. fold path.
    rewrite bool_decide_eq_true_2 by (rewrite Hfile; eauto).
    destruct (Backend.process_dem_to_heightmap tri resize path resolution _)
      as [[out | err] w2]; cbn; auto.
  - intros src_georef. cbv zeta.
    unfold Routes.process_dem_info.
    rewrite (truthy_nonempty uuid4 Huuid).
    cbn [negb default from_option]. unfold id.
    unfold Os.path_exists. cbn [files]. fold path.
    rewrite bool_decide_eq_true_2 by (rewrite Hfile; eauto).
    destruct (Os.rasterio_open path _) as [[src | err] w2]; [ | cbn; auto ].
    destruct (Np.nanmin _); try destruct (Np.nanmax _); cbn; auto.
Qed.

Lemma download_then_process_witness :
  exists params response size s n wst e,
    Routes.download_dem "key" Samples.flat_cos (Samples.always Samples.clean) "abc"
      (Routes.DownloadRequest (Some (of_Z 36)) (Some (of_Z (-112))) None None None)
      Samples.empty_store =
    (Routes.DownloadResponse 200
       (Routes.Downloaded "abc" "DEM downloaded successfully" size s n wst e),
     World (<[ Os.path_join Backend.UPLOAD_FOLDER ("dem_" +:+ "abc" +:+ ".tif")
               := Routes.content response ]> (files Samples.empty_store))
           (trace Samples.empty_store ++
            [FsWrite (Os.path_join Backend.UPLOAD_FOLDER
                        ("dem_" +:+ "abc" +:+ ".tif"))]),
     [params]) /\
    Samples.always Samples.clean params = Some response /\
    (forall tri resize resolution,
       In resolution Backend.supported_resolutions ->
       let answer :=
         Backend.status
           (fst (Backend.process_dem tri resize
                   (Backend.ProcessRequest (Some "abc") (Some resolution))
                   (snd (fst (Routes.download_dem "key" Samples.flat_cos
                                (Samples.always Samples.clean) "abc"
                                (Routes.DownloadRequest (Some (of_Z 36))
                                   (Some (of_Z (-112))) None None None)
                                Samples.empty_store))))) in
       answer = 200 \/ answer = 500) /\
    (forall src_georef,
       let answer :=
         Routes.info_status
           (fst (Routes.process_dem_info src_georef (Some "abc")
                   (snd (fst (Routes.download_dem "key" Samples.flat_cos
                                (Samples.always Samples.clean) "abc"
                                (Routes.DownloadRequest (Some (of_Z 36))
                                   (Some (of_Z (-112))) None None None)
                                Samples.empty_store))))) in
       answer = 200 \/ answer = 500).
Proof.
  apply (download_then_process "key" Samples.flat_cos
           (Samples.always Samples.clean) "abc"
           (Routes.DownloadRequest (Some (of_Z 36)) (Some (of_Z (-112)))
              None None None)
           Samples.empty_store).
  - reflexivity.
  - discriminate.
Defined.

Example download_dem_bbox :
  snd (Routes.download_dem "" Samples.flat_cos (Samples.always Samples.clean) "abc"
         (Routes.DownloadRequest (Some (of_Z 36)) (Some (of_Z (-112)))
            (Some (of_Z 111)) None (Some "k"))
         Samples.empty_store) =
  [Routes.OpenTopoParams "SRTMGL1"
     (Fin (36 + - (111 / 111))) (Fin (36 + 111 / 111))
     (Fin (-112 + - (111 / (111 * 1)))) (Fin (-112 + 111 / (111 * 1)))
     "GTiff" "k"].
Proof. reflexivity. Qed.

(** ** The headers of the n8n client *)

(** X12.  The headers [call_webhook] sends: a header the caller passes
    always wins; otherwise [X-N8N-API-KEY] is the configured key when
    there is one, [Content-Type] is [application/json], and no other
    header is sent. *)
Theorem request_headers_lookup
        (api_key : option string) (headers : option (gmap string string))
        (name : string) :
  N8N.request_headers api_key headers !! name =
  match default ∅ headers !! name with
  | Some v => Some v
  | None =>
      if decide (name = "X-N8N-API-KEY" /\ Backend.truthy api_key = true)
      then api_key
      else if decide (name = "Content-Type") then Some "application/json"
           else None
  end.
Proof.
  unfold N8N.request_headers. cbv zeta.
  match goal with
  | |- context [ if Backend.truthy api_key then ?a else ?b ] =>
      set (keyed := if Backend.truthy api_key then a else b)
  end.
  assert (Hkeyed :
    keyed !! name =
    if decide (name = "X-N8N-API-KEY" /\ Backend.truthy api_key = true)
    then api_key
    else if decide (name = "Content-Type") then Some "application/json"
         else None).
  { subst keyed. destruct (Backend.truthy api_key) eqn:Hk.
    - destruct api_key as [k | ]; [ | discriminate Hk ]. cbn [default from_option].
      unfold id.
      destruct (decide (name = "X-N8N-API-KEY" /\ true = true)) as [[-> _] | Hn].
      + apply lookup_insert_eq.
      + rewrite lookup_insert_ne by (intros <-; apply Hn; split; reflexivity).
        destruct (decide (name = "Content-Type")) as [-> | Hc].
        * apply lookup_singleton_eq.
        * apply lookup_singleton_ne. congruence.
    - destruct (decide (name = "X-N8N-API-KEY" /\ false = true)) as [[_ H] | _];
        [ discriminate H | ].
      destruct (decide (name = "Content-Type")) as [-> | Hc].
      + apply lookup_singleton_eq.
      + apply lookup_singleton_ne. congruence. }
  clearbody keyed. destruct headers as [h | ]; cbn [default from_option].
  - unfold id. destruct (bool_decide (h = ∅)) eqn:Hempty.
    + apply bool_decide_eq_true in Hempty. subst h.
      rewrite lookup_empty. exact Hkeyed.
    + rewrite lookup_union, Hkeyed.
      destruct (h !! name) as [v | ]; [ | apply left_id; apply _ ].
      repeat case_decide; destruct api_key; reflexivity.
  - rewrite lookup_empty. exact Hkeyed.
Qed.

(** ** The scripts: normalise, resample, quantise *)

Lemma map2d_shape {A B : Type} (f : A -> B) (h w : nat) (g : list (list A)) :
  has_shape h w g -> has_shape h w (Np.map2d f g).
Proof.
  intros [Hlen Hrows]. split.
  - unfold Np.map2d. rewrite length_map. exact Hlen.
  - unfold Np.map2d. clear Hlen. induction Hrows as [ | row rest Hrow _ IH ].
    + constructor.
    + cbn [map]. constructor; [ rewrite length_map; exact Hrow | exact IH ].
Qed.

Lemma has_shape_nonempty {A : Type} (h w : nat) (g : list (list A)) :
  has_shape h w g -> (1 <= h)%nat -> (1 <= w)%nat -> concat g <> [].
Proof.
  intros [Hlen Hrows] Hh Hw.
  destruct g as [ | row rest ]; [ cbn in Hlen; lia | ].
  inversion Hrows as [ | ? ? Hrow _ ]; subst.
  destruct row as [ | x row ]; [ cbn in Hw; lia | ].
  cbn. discriminate.
Qed.

Lemma resampled_shape {A : Type} (f : nat -> nat -> A) (oh ow : nat) :
  has_shape oh ow (map (fun i => map (f i) (seq 0 ow)) (seq 0 oh)).
Proof.
  split.
  - rewrite length_map, length_seq. reflexivity.
  - apply List.Forall_forall. intros row Hrow.
    apply in_map_iff in Hrow. destruct Hrow as (i & <- & _).
    rewrite length_map, length_seq. reflexivity.
Qed.

Lemma unit_interval_finite (g : grid) :
  Forall (Forall F.unit_interval) g -> grid_finite g.
Proof.
  intros Hg. unfold grid_finite.
  eapply List.Forall_impl; [ | exact Hg ]. intros row Hrow.
  eapply List.Forall_impl; [ | exact Hrow ].
  intros [ q | | | ] Hx; cbn in Hx; try contradiction. reflexivity.
Qed.


Lemma qcell_unit (g : grid) (i j : Z) :
  Forall (Forall F.unit_interval) g ->
  (0 <= Spec.qcell g i j /\ Spec.qcell g i j <= 1)%Q.
Proof.
  intros Hg. unfold Spec.qcell, Ndimage.cell.
  assert (H : F.unit_interval
                (nth (Z.to_nat j) (nth (Z.to_nat i) g []) (Fin 0))).
  { apply nth_Forall; [ | cbn; lra ].
    apply (nth_Forall (Forall F.unit_interval)); [ exact Hg | constructor ]. }
  destruct (nth _ _ _); cbn in H; try contradiction. exact H.
Qed.

Lemma lerp_unit (a b t : Q) :
  (0 <= a /\ a <= 1)%Q -> (0 <= b /\ b <= 1)%Q -> (0 <= t /\ t <= 1)%Q ->
  (0 <= (1 - t) * a + t * b /\ (1 - t) * a + t * b <= 1)%Q.
Proof.
  intros [Ha0 Ha1] [Hb0 Hb1] [Ht0 Ht1].
  assert (H1 : (0 <= (1 - t) * a)%Q) by (apply Qmult_le_0_compat; lra).
  assert (H2 : (0 <= t * b)%Q) by (apply Qmult_le_0_compat; lra).
  assert (H3 : (0 <= (1 - t) * (1 - a))%Q) by (apply Qmult_le_0_compat; lra).
  assert (H4 : (0 <= t * (1 - b))%Q) by (apply Qmult_le_0_compat; lra).
  split; lra.
Qed.

Lemma fraction_unit (y : Q) :
  (0 <= y - inject_Z (Qfloor y) /\ y - inject_Z (Qfloor y) <= 1)%Q.
Proof.
  pose proof (Qfloor_le y) as Hlo. pose proof (Qlt_floor y) as Hhi.
  rewrite inject_Z_plus in Hhi.
  change (inject_Z 1) with 1%Q in Hhi. split; lra.
Qed.

Lemma bilinear_unit (g : grid) (y x : Q) :
  Forall (Forall F.unit_interval) g ->
  (0 <= Spec.bilinear g y x /\ Spec.bilinear g y x <= 1)%Q.
Proof.
  intros Hg. unfold Spec.bilinear. cbv zeta.
  apply lerp_unit; [ | | apply fraction_unit ];
    (apply lerp_unit; [ apply qcell_unit, Hg | apply qcell_unit, Hg
                      | apply fraction_unit ]).
Qed.

Lemma equiv_unit (x : float64) (q : Q) :
  F.equiv x (Fin q) -> (0 <= q /\ q <= 1)%Q -> F.unit_interval x.
Proof.
  destruct x as [ a | | | ]; cbn; try contradiction.
  intros Heq [H0 H1]. rewrite Heq. split; assumption.
Qed.

Lemma resampled_unit (g : grid) (h w oh ow : nat) :
  has_shape h w g -> Forall (Forall F.unit_interval) g ->
  (1 <= h)%nat -> (1 <= w)%nat ->
  Forall (Forall F.unit_interval)
    (map (fun i =>
            map (fun j => Ndimage.sample g (Ndimage.taps h oh i)
                                           (Ndimage.taps w ow j))
                (seq 0 ow))
         (seq 0 oh)).
Proof.
  intros Hs Hg Hh Hw.
  apply List.Forall_forall. intros row Hrow.
  apply in_map_iff in Hrow. destruct Hrow as (i & <- & Hi).
  apply List.Forall_forall. intros x Hx.
  apply in_map_iff in Hx. destruct Hx as (j & <- & Hj).
  apply in_seq in Hi. apply in_seq in Hj.
  eapply equiv_unit.
  - apply (sample_bilinear g h w oh ow i j); try assumption; try lia.
    apply unit_interval_finite, Hg.
  - apply bilinear_unit, Hg.
Qed.


Lemma spec_normalizer_shape (g : grid) (h w : nat) :
  has_shape h w g -> has_shape h w (Spec.normalizer g).
Proof.
  intros Hs. unfold Spec.normalizer, Np.zeros_like.
  destruct (Spec.finite_cells g); cbn [Spec.extremum];
    apply map2d_shape, Hs.
Qed.

Lemma normalize_resize (g : grid) (h w T : nat) :
  has_shape h w g -> grid_finite g -> (1 <= h)%nat -> (1 <= w)%nat ->
  DemProcessor.heightmap_of g (Z.of_nat T) =
  Ok (Np.map2d DemProcessor.to_uint16
        (map (fun i =>
                map (fun j => Ndimage.sample (Spec.normalizer g)
                                (Ndimage.taps h T i) (Ndimage.taps w T j))
                    (seq 0 T))
             (seq 0 T))).
Proof.
  intros Hs Hg Hh Hw. unfold DemProcessor.heightmap_of.
  rewrite (dem_processor_normalize_spec g Hg
             (has_shape_nonempty h w g Hs Hh Hw)).
  cbn [mbind result_bind].
  pose proof (spec_normalizer_shape g h w Hs) as Hn.
  rewrite (resize_zoom g (Spec.normalizer g) h w T Hs Hn Hh Hw).
  reflexivity.
Qed.



Lemma flat_normalizer (g : grid) (a : Q) :
  Forall (Forall (fun x => F.equiv x (Fin a))) g ->
  Spec.normalizer g = Np.zeros_like g.
Proof.
  intros Hflat. unfold Spec.normalizer.
  destruct (Spec.finite_cells g) as [ | b r ] eqn:Hcells;
    [ reflexivity | ].
  destruct (extrema_spec g b r Hcells) as ((Hmn & _) & (Hmx & _) & _).
  cbn [Spec.extremum]. unfold Np.zeros_like.
  pose proof (Forall_concat_grid _ g Hflat) as Hall.
  rewrite List.Forall_forall in Hall.
  pose proof (Hall _ Hmn) as Emn. pose proof (Hall _ Hmx) as Emx.
  cbn in Emn, Emx.
  apply (map2d_ext_Forall (fun _ => True)); [ apply Forall_True_grid | ].
  intros [ c | | | ] _; try reflexivity.
  destruct (Qlt_le_dec _ _) as [Hlt | _]; [ | reflexivity ].
  exfalso. rewrite Emn, Emx in Hlt. apply (Qlt_irrefl a). exact Hlt.
Qed.

Lemma bilinear_zeros (g : grid) (y x : Q) :
  (Spec.bilinear (Np.zeros_like g) y x == 0)%Q.
Proof.
  assert (Hcell : forall i j, Spec.qcell (Np.zeros_like g) i j = 0%Q).
  { intros i j. unfold Spec.qcell, Ndimage.cell.
    assert (H : nth (Z.to_nat j) (nth (Z.to_nat i) (Np.zeros_like g) [])
                    (Fin 0) = Fin 0).
    { apply (nth_Forall (fun x => x = Fin 0)); [ | reflexivity ].
      apply (nth_Forall (Forall (fun x => x = Fin 0))); [ | constructor ].
      unfold Np.zeros_like. apply Forall_map2d. reflexivity. }
    rewrite H. reflexivity. }
  unfold Spec.bilinear. cbv zeta. rewrite !Hcell. ring.
Qed.

(** X14.  A band in which every cell holds the same finite value is
    turned into an image of [T] rows and [T] columns whose pixels are
    all [0]: the division by [max - min] is not attempted. *)
Theorem dem_processor_flat_band (g : grid) (h w T : nat) (a : Q) :
  has_shape h w g -> (1 <= h)%nat -> (1 <= w)%nat ->
  Forall (Forall (fun x => F.equiv x (Fin a))) g ->
  exists heightmap,
    DemProcessor.heightmap_of g (Z.of_nat T) = Ok heightmap /\
    has_shape T T heightmap /\
    Forall (Forall (fun px => px = 0)) heightmap.
Proof.
  intros Hs Hh Hw Hflat.
  assert (Hg : grid_finite g).
  { unfold grid_finite. eapply List.Forall_impl; [ | exact Hflat ].
    intros row Hrow. eapply List.Forall_impl; [ | exact Hrow ].
    intros [ q | | | ] Hx; cbn in Hx; try contradiction. reflexivity. }
  eexists. split; [ apply (normalize_resize g h w T Hs Hg Hh Hw) | ].
  split; [ apply map2d_shape, resampled_shape | ].
  rewrite (flat_normalizer g a Hflat).
  assert (Hz : has_shape h w (Np.zeros_like g))
    by (unfold Np.zeros_like; apply map2d_shape, Hs).
  assert (Hzf : grid_finite (Np.zeros_like g))
    by (unfold Np.zeros_like; apply Forall_map2d; reflexivity).
  unfold Np.map2d. apply List.Forall_forall. intros row Hrow.
  apply in_map_iff in Hrow. destruct Hrow as (srow & <- & Hsrow).
  apply in_map_iff in Hsrow. destruct Hsrow as (i & <- & Hi).
  apply List.Forall_forall. intros px Hpx.
  apply in_map_iff in Hpx. destruct Hpx as (x & <- & Hx).
  apply in_map_iff in Hx. destruct Hx as (j & <- & Hj).
  apply in_seq in Hi. apply in_seq in Hj.
  pose proof (sample_bilinear (Np.zeros_like g) h w T T i j Hz Hzf Hh Hw
                ltac:(lia) ltac:(lia)) as Heq.
  destruct (Ndimage.sample _ _ _) as [ q | | | ]; cbn in Heq;
    try contradiction.
  rewrite bilinear_zeros in Heq.
  unfold DemProcessor.to_uint16, Np.astype_uint16.
  rewrite astype_uint_unit by (try lia; rewrite Heq; lra).
  rewrite Heq. reflexivity.
Qed.

Lemma dem_processor_flat_band_witness :
  exists heightmap,
    DemProcessor.heightmap_of Samples.plateau (Z.of_nat 5) = Ok heightmap /\
    has_shape 5 5 heightmap /\
    Forall (Forall (fun px => px = 0)) heightmap.
Proof.
  apply (dem_processor_flat_band Samples.plateau 2 3 5 (inject_Z 500)).
  - split; [ reflexivity | repeat constructor ].
  - lia.
  - lia.
  - repeat constructor.
Defined.

(** X15.  [resize_heightmap] takes its target as (width, height): on a
    grid with cells in [[0,1]] it returns a grid of [height] rows and
    [width] columns whose cells are again in [[0,1]]. *)
Theorem resize_heightmap_shape_range (g : grid) (h w width height : nat) :
  has_shape h w g -> (1 <= h)%nat -> (1 <= w)%nat ->
  Forall (Forall F.unit_interval) g ->
  exists out,
    ImageUtils.resize_heightmap g (Z.of_nat width, Z.of_nat height) = Ok out /\
    has_shape height width out /\
    Forall (Forall F.unit_interval) out.
Proof.
  intros Hs Hh Hw Hg. eexists.
  split; [ apply (resize_heightmap_zoom g h w height width Hs Hh Hw) | ].
  split; [ apply resampled_shape | ].
  apply (resampled_unit g h w height width Hs Hg Hh Hw).
Qed.

Lemma resize_heightmap_shape_range_witness :
  exists out,
    ImageUtils.resize_heightmap Examples.ramp (Z.of_nat 3, Z.of_nat 4)
    = Ok out /\
    has_shape 4 3 out /\
    Forall (Forall F.unit_interval) out.
Proof.
  apply (resize_heightmap_shape_range Examples.ramp 2 2 3 4).
  - split; [ reflexivity | repeat constructor ].
  - lia.
  - lia.
  - repeat (apply List.Forall_cons || apply List.Forall_nil);
      vm_compute; split; discriminate.
Defined.

(** ** dem_processor_alt.py: the two back ends *)










Example alt_backends_differ_on_sentinel :
  DemProcessorAlt.process_dem_with_rasterio Samples.holed 2 <>
  DemProcessorAlt.process_dem_with_gdal (data Samples.holed) 2.
Proof. vm_compute. discriminate. Qed.

(** ** dem_processor.py: the command line *)

Lemma heightmap_of_raises (g : grid) (resolution : Z) (e : exn) :
  DemProcessor.heightmap_of g resolution = Raise e ->
  e = ValueError \/ e = ZeroDivisionError.
Proof.
  unfold DemProcessor.heightmap_of, DemProcessor.normalize,
    DemProcessor.resize, Np.min, Np.max, Np.reduce, py_div.
  destruct (concat g) as [ | x rest ].
  - cbn. intros [= <-]. left. reflexivity.
  - cbn [mbind result_bind].
    destruct (F.eqb _ _); cbn [mbind result_bind];
      destruct (length g); cbn [mbind result_bind];
      try (intros [= <-]; right; reflexivity);
      destruct (length (hd [] g)); cbn [mbind result_bind];
      try (intros [= <-]; right; reflexivity); discriminate.
Qed.

(** X17.  The exit contract of dem_processor.py.  When [main] returns,
    the arguments named an input that held a GeoTIFF, and the only
    change to the files is the output image, which is the heightmap of
    that band at the resolution given (513 by default).  Otherwise the
    files are as they were, and the exit status is 1 unless [int]
    rejected the resolution argument. *)
Theorem dem_processor_main_contract
        (py_int : string -> result Z) (argv : list string) (w : world) :
  match DemProcessorCli.main py_int argv w with
  | (Ok _, w') =>
      exists prog dem_path output_path rest r resolution heightmap,
        argv = prog :: dem_path :: output_path :: rest /\
        files w !! dem_path = Some (GeoTIFF r) /\
        match rest with s :: _ => py_int s | [] => Ok 513 end = Ok resolution /\
        DemProcessor.heightmap_of (data r) resolution = Ok heightmap /\
        files w' = <[output_path := PNG16 heightmap]> (files w)
  | (Raise e, w') =>
      files w' = files w /\
      (e = SystemExit 1 \/
       exists s, nth_error argv 3 = Some s /\ py_int s = Raise e)
  end.
Proof.
  unfold DemProcessorCli.main.
  destruct argv as [ | prog [ | dem_path [ | output_path rest ] ] ];
    try (split; [ reflexivity | left; reflexivity ]).
  destruct (match rest with s :: _ => py_int s | [] => Ok 513 end)
    as [ resolution | e ] eqn:Hres.
  2: { split; [ reflexivity | right ].
       destruct rest as [ | s rest ]; [ discriminate Hres | ].
       exists s. split; [ reflexivity | exact Hres ]. }
  unfold Os.path_exists.
  destruct (bool_decide (is_Some (files w !! dem_path)));
    [ | split; [ reflexivity | left; reflexivity ] ].
  unfold DemProcessor.process_dem_to_heightmap, Os.gdal_Open.
  cbn [Os.log files].
  destruct (files w !! dem_path) as [ [ r | px | ] | ] eqn:Hfile;
    try (split; [ reflexivity | left; reflexivity ]).
  destruct (DemProcessor.heightmap_of (data r) resolution)
    as [ heightmap | e ] eqn:Hmap.
  - unfold Os.makedirs.
    destruct (Os.dirname output_path) as [ | c d ].
    + split; [ reflexivity | left; reflexivity ].
    + cbn [Os.save Os.log files].
      exists prog, dem_path, output_path, rest, r, resolution, heightmap.
      repeat split; try reflexivity; assumption.
  - destruct (heightmap_of_raises _ _ _ Hmap) as [-> | ->];
      (split; [ reflexivity | left; reflexivity ]).
Qed.

Example dem_processor_main_run :
  exists heightmap,
    DemProcessorCli.main Samples.py_int
      ["dem_processor.py"; "temp/dem_x.tif"; "out/h.png"; "3"]
      Samples.clean_store =
    (Ok tt,
     World (<["out/h.png" := PNG16 heightmap]> (files Samples.clean_store))
           [FsExists "temp/dem_x.tif"; FsOpen "temp/dem_x.tif";
            FsMakedirs "out"; FsWrite "out/h.png"]) /\
    has_shape 3 3 heightmap.
Proof.
  eexists. split; [ vm_compute; reflexivity | ].
  split; [ reflexivity | repeat constructor ].
Qed.

(** ** utils/image_utils.py *)




Lemma Qfloor_scaled_div (q : Q) :
  (0 <= q)%Q ->
  Qfloor (q * inject_Z 65535) / 257 = Qfloor (q * inject_Z 255).
Proof.
  intros Hq. set (m := Qfloor (q * inject_Z 255)).
  pose proof (Qfloor_le (q * inject_Z 255)) as Hlo.
  pose proof (Qlt_floor (q * inject_Z 255)) as Hhi.
  fold m in Hlo, Hhi. rewrite inject_Z_plus in Hhi.
  change (inject_Z 1) with 1%Q in Hhi.
  assert (Hk : (q * inject_Z 65535 == q * inject_Z 255 * inject_Z 257)%Q).
  { change 65535 with (255 * 257). rewrite inject_Z_mult. ring. }
  assert (H257 : (inject_Z 257 == 257)%Q) by reflexivity.
  assert (Hlow : 257 * m <= Qfloor (q * inject_Z 65535)).
  { rewrite <- (Qfloor_Z (257 * m)). apply Qfloor_resp_le.
    rewrite Hk, inject_Z_mult, H257.
    assert (0 <= (q * inject_Z 255 - inject_Z m) * 257)%Q
      by (apply Qmult_le_0_compat; lra).
    lra. }
  assert (Hupp : Qfloor (q * inject_Z 65535) < 257 * m + 257).
  { rewrite Zlt_Qlt.
    apply Qle_lt_trans with (q * inject_Z 65535)%Q; [ apply Qfloor_le | ].
    rewrite Hk, inject_Z_plus, inject_Z_mult, H257.
    assert (0 < (inject_Z m + 1 - q * inject_Z 255) * 257)%Q
      by (apply Qmult_lt_0_compat; lra).
    lra. }
  symmetry.
  apply (Z.div_unique _ 257 m (Qfloor (q * inject_Z 65535) - 257 * m)); lia.
Qed.

(** X19.  For a heightmap with cells in [[0,1]], the 8-bit image that
    [save_heightmap_8bit] writes is the 16-bit image that
    [save_heightmap_16bit] writes with every pixel divided by 257
    (integer division): the two files agree on the top eight bits. *)
Theorem heightmap_8bit_of_16bit (heightmap : grid) :
  Forall (Forall F.unit_interval) heightmap ->
  ImageUtils.heightmap_8bit heightmap =
  Np.map2d (fun px => px / 257) (ImageUtils.heightmap_16bit heightmap).
Proof.
  intros Hunit. unfold ImageUtils.heightmap_8bit, ImageUtils.heightmap_16bit.
  rewrite map2d_map2d.
  apply (map2d_ext_Forall F.unit_interval); [ exact Hunit | ].
  intros [ q | | | ] Hq; cbn [F.unit_interval] in Hq; try contradiction.
  destruct Hq as [H0 H1]. unfold Np.astype_uint8, Np.astype_uint16.
  rewrite !astype_uint_unit by (try lia; assumption).
  symmetry. apply Qfloor_scaled_div. exact H0.
Qed.

Lemma heightmap_8bit_of_16bit_witness :
  ImageUtils.heightmap_8bit Examples.ramp =
  Np.map2d (fun px => px / 257) (ImageUtils.heightmap_16bit Examples.ramp).
Proof.
  apply (heightmap_8bit_of_16bit Examples.ramp).
  repeat (apply List.Forall_cons || apply List.Forall_nil);
    vm_compute; split; discriminate.
Defined.

(** ** backend/app.py: a raster without gaps *)






(** ** Download, process, clean up *)

(** X21.  One full round through the three routes.  When the download
    answered 200 with an identifier that is not empty and holds no dot,
    processing that identifier answered 200, and neither of the two
    paths [temp/dem_<id>.tif] and [temp/dem_<id>_heightmap.png] was in
    use before, then [cleanup] reports two deleted files and the stored
    files are exactly those from before the download. *)
Theorem download_process_cleanup
        (OPENTOPO_API_KEY : string) (cos_deg : float64 -> float64)
        (get : Routes.opentopo) (uuid4 : string)
        (data : Routes.download_request)
        (tri : Interpolate.triangulation) (resize : PIL.resizer)
        (resolution : option Z)
        (w w1 w2 w3 : world) (downloaded : Routes.download_response)
        (requests : list Routes.opentopo_params)
        (processed cleaned : Backend.response) :
  uuid4 <> "" -> dot_free uuid4 = true ->
  files w !! Os.path_join Backend.UPLOAD_FOLDER ("dem_" +:+ uuid4 +:+ ".tif")
    = None ->
  files w !! Os.path_join Backend.UPLOAD_FOLDER
               ("dem_" +:+ uuid4 +:+ "_heightmap.png") = None ->
  Routes.download_dem OPENTOPO_API_KEY cos_deg get uuid4 data w
    = (downloaded, w1, requests) ->
  Routes.download_status downloaded = 200 ->
  Backend.process_dem tri resize
    (Backend.ProcessRequest (Some uuid4) resolution) w1 = (processed, w2) ->
  Backend.status processed = 200 ->
  Backend.cleanup (Some uuid4) w2 = (cleaned, w3) ->
  cleaned =
    Backend.Response 200
      (Backend.JsonCleanup "Cleaned up 2 file(s)"
         ["dem_" +:+ uuid4 +:+ ".tif"; "dem_" +:+ uuid4 +:+ "_heightmap.png"]) /\
  files w3 = files w.
Proof.
  intros Hne Hfree Hp1 Hp2 Hdl Hs1 Hpr Hs2 Hcl.
  pose proof (dem_paths_differ uuid4) as Hp.
  unfold Routes.download_dem in Hdl.
  destruct (Routes.latitude data) as [lat | ],
           (Routes.longitude data) as [lon | ];
    try (injection Hdl as <- <- <-; discriminate Hs1).
  destruct (Backend.truthy _); cbn [negb] in Hdl;
    [ | injection Hdl as <- <- <-; discriminate Hs1 ].
  destruct (get _) as [response | ];
    [ | injection Hdl as <- <- <-; discriminate Hs1 ].
  unfold Routes.write_file in Hdl. injection Hdl as <- <- <-. clear Hs1.
  set (p1 := Os.path_join Backend.UPLOAD_FOLDER ("dem_" +:+ uuid4 +:+ ".tif"))
    in *.
  set (p2 := Os.path_join Backend.UPLOAD_FOLDER
               ("dem_" +:+ uuid4 +:+ "_heightmap.png")) in *.
  unfold Backend.process_dem in Hpr.
  cbn [Backend.pr_file_id Backend.pr_resolution] in Hpr.
  rewrite (truthy_nonempty uuid4 Hne) in Hpr.
  cbn [negb default from_option] in Hpr. unfold id in Hpr.
  destruct (existsb _ Backend.supported_resolutions); cbn [negb] in Hpr;
    [ | injection Hpr as <- <-; discriminate Hs2 ].
  unfold Os.path_exists in Hpr. cbn [files] in Hpr. fold p1 in Hpr.
  rewrite bool_decide_eq_true_2 in Hpr
    by (rewrite lookup_insert_eq; eauto).
  unfold Backend.process_dem_to_heightmap, Os.rasterio_open, Os.log in Hpr.
  cbn [files trace] in Hpr. rewrite lookup_insert_eq in Hpr.
  destruct (Routes.content response) as [ r | px | ];
    try (injection Hpr as <- <-; discriminate Hs2).
  destruct (Backend.heightmap_of tri resize r _) as [ image | e ];
    [ | injection Hpr as <- <-; discriminate Hs2 ].
  unfold p1 in Hpr. rewrite (heightmap_path uuid4 Hfree) in Hpr.
  fold p1 p2 in Hpr. unfold Os.save in Hpr. cbn [files trace] in Hpr.
  injection Hpr as <- <-. clear Hs2.
  match type of Hcl with
  | Backend.cleanup _ ?wa = _ =>
      destruct (cleanup_files uuid4 wa Hne) as [tr Hrun]
  end.
  cbv zeta in Hrun. fold p1 p2 in Hrun. cbn [files] in Hrun.
  rewrite Hrun in Hcl. clear Hrun. injection Hcl as <- <-. cbn [files].
  rewrite (lookup_insert_ne (<[p1 := GeoTIFF r]> (files w)) p2 p1)
    by congruence.
  rewrite lookup_insert_eq.
  rewrite (delete_insert_ne (<[p1 := GeoTIFF r]> (files w)) p1 p2) by exact Hp.
  rewrite (delete_insert_id (files w) p1) by exact Hp1.
  rewrite lookup_insert_eq.
  rewrite (delete_insert_id (files w) p2) by exact Hp2.
  split; reflexivity.
Qed.

Lemma download_process_cleanup_witness :
  fst (Backend.cleanup (Some "abc")
         (snd (Backend.process_dem Interpolate.single_triangle Examples.nearest
                 (Backend.ProcessRequest (Some "abc") (Some 129))
                 (snd (fst (Routes.download_dem "key" Samples.flat_cos
                              (Samples.always Samples.clean) "abc"
                              (Routes.DownloadRequest (Some (of_Z 36))
                                 (Some (of_Z (-112))) None None None)
                              Samples.empty_store)))))) =
    Backend.Response 200
      (Backend.JsonCleanup "Cleaned up 2 file(s)"
         ["dem_" +:+ "abc" +:+ ".tif"; "dem_" +:+ "abc" +:+ "_heightmap.png"]) /\
  files (snd (Backend.cleanup (Some "abc")
                (snd (Backend.process_dem Interpolate.single_triangle
                        Examples.nearest
                        (Backend.ProcessRequest (Some "abc") (Some 129))
                        (snd (fst (Routes.download_dem "key" Samples.flat_cos
                                     (Samples.always Samples.clean) "abc"
                                     (Routes.DownloadRequest (Some (of_Z 36))
                                        (Some (of_Z (-112))) None None None)
                                     Samples.empty_store))))))) =
  files Samples.empty_store.
Proof.
  apply (download_process_cleanup "key" Samples.flat_cos
           (Samples.always Samples.clean) "abc"
           (Routes.DownloadRequest (Some (of_Z 36)) (Some (of_Z (-112)))
              None None None)
           Interpolate.single_triangle Examples.nearest (Some 129)
           Samples.empty_store
           (snd (fst (Routes.download_dem "key" Samples.flat_cos
                        (Samples.always Samples.clean) "abc"
                        (Routes.DownloadRequest (Some (of_Z 36))
                           (Some (of_Z (-112))) None None None)
                        Samples.empty_store)))
           (snd (Backend.process_dem Interpolate.single_triangle
                   Examples.nearest
                   (Backend.ProcessRequest (Some "abc") (Some 129))
                   (snd (fst (Routes.download_dem "key" Samples.flat_cos
                                (Samples.always Samples.clean) "abc"
                                (Routes.DownloadRequest (Some (of_Z 36))
                                   (Some (of_Z (-112))) None None None)
                                Samples.empty_store)))))
           (snd (Backend.cleanup (Some "abc")
                   (snd (Backend.process_dem Interpolate.single_triangle
                           Examples.nearest
                           (Backend.ProcessRequest (Some "abc") (Some 129))
                           (snd (fst (Routes.download_dem "key"
                                        Samples.flat_cos
                                        (Samples.always Samples.clean) "abc"
                                        (Routes.DownloadRequest
                                           (Some (of_Z 36))
                                           (Some (of_Z (-112)))
                                           None None None)
                                        Samples.empty_store)))))))
           (fst (fst (Routes.download_dem "key" Samples.flat_cos
                        (Samples.always Samples.clean) "abc"
                        (Routes.DownloadRequest (Some (of_Z 36))
                           (Some (of_Z (-112))) None None None)
                        Samples.empty_store)))
           (snd (Routes.download_dem "key" Samples.flat_cos
                   (Samples.always Samples.clean) "abc"
                   (Routes.DownloadRequest (Some (of_Z 36))
                      (Some (of_Z (-112))) None None None)
                   Samples.empty_store))
           (fst (Backend.process_dem Interpolate.single_triangle
                   Examples.nearest
                   (Backend.ProcessRequest (Some "abc") (Some 129))
                   (snd (fst (Routes.download_dem "key" Samples.flat_cos
                                (Samples.always Samples.clean) "abc"
                                (Routes.DownloadRequest (Some (of_Z 36))
                                   (Some (of_Z (-112))) None None None)
                                Samples.empty_store)))))
           (fst (Backend.cleanup (Some "abc")
                   (snd (Backend.process_dem Interpolate.single_triangle
                           Examples.nearest
                           (Backend.ProcessRequest (Some "abc") (Some 129))
                           (snd (fst (Routes.download_dem "key"
                                        Samples.flat_cos
                                        (Samples.always Samples.clean) "abc"
                                        (Routes.DownloadRequest
                                           (Some (of_Z 36))
                                           (Some (of_Z (-112)))
                                           None None None)
                                        Samples.empty_store)))))))).
  - discriminate.
  - reflexivity.
  - reflexivity.
  - reflexivity.
  - destruct (Routes.download_dem _ _ _ _ _ _) as [[a b] c]. reflexivity.
  - reflexivity.
  - destruct (Backend.process_dem _ _ _ _) as [a b]. reflexivity.
  - vm_compute. reflexivity.
  - destruct (Backend.cleanup _ _) as [a b]. reflexivity.
Defined.

(** ** The bounding box of [download_dem] *)

(** X22.  For a finite latitude and longitude, a radius that is not
    negative and a positive cosine of the latitude, the box requested
    from OpenTopography is centred on the point: it reaches [r / 111]
    degrees to the south and to the north and [r / (111 * cos lat)]
    degrees to the west and to the east, so it contains the point. *)
Theorem download_bbox_contains_point
        (OPENTOPO_API_KEY : string) (cos_deg : float64 -> float64)
        (get : Routes.opentopo) (uuid4 : string)
        (data : Routes.download_request) (w : world)
        (lat lon radius c : Q) :
  Routes.latitude data = Some (Fin lat) ->
  Routes.longitude data = Some (Fin lon) ->
  default (of_Z 10) (Routes.radius_km data) = Fin radius ->
  cos_deg (Fin lat) = Fin c ->
  (0 <= radius)%Q -> (0 < c)%Q ->
  Backend.truthy (Routes.str_or OPENTOPO_API_KEY (Routes.api_key data)) = true ->
  exists params s n wst e,
    snd (Routes.download_dem OPENTOPO_API_KEY cos_deg get uuid4 data w)
    = [params] /\
    Routes.south params = Fin s /\ Routes.north params = Fin n /\
    Routes.west params = Fin wst /\ Routes.east params = Fin e /\
    (lat - s == radius / 111)%Q /\ (n - lat == radius / 111)%Q /\
    (lon - wst == radius / (111 * c))%Q /\
    (e - lon == radius / (111 * c))%Q /\
    (s <= lat)%Q /\ (lat <= n)%Q /\ (wst <= lon)%Q /\ (lon <= e)%Q.
Proof.
  intros Hlat Hlon Hrad Hcos Hr Hc Hkey.
  assert (Hden : (0 < 111 * c)%Q) by lra.
  assert (Hlat_off : F.div (Fin radius) (of_Z 111) = Fin (radius / 111)).
  { reflexivity. }
  assert (Hlon_off : F.div (Fin radius) (F.mul (of_Z 111) (Fin c))
                     = Fin (radius / (111 * c))).
  { cbn [F.mul of_Z F.div]. change (inject_Z 111) with 111%Q.
    destruct (Qeq_bool (111 * c) 0) eqn:E; [ | reflexivity ].
    apply Qeq_bool_iff in E. lra. }
  assert (H1 : (0 <= radius / 111)%Q)
    by (apply Qle_shift_div_l; lra).
  assert (H2 : (0 <= radius / (111 * c))%Q)
    by (apply Qle_shift_div_l; lra).
  unfold Routes.download_dem. rewrite Hlat, Hlon, Hrad, Hcos, Hkey.
  cbv zeta. cbn [negb]. rewrite Hlat_off, Hlon_off.
  cbn [F.sub F.neg F.add].
  eexists _, _, _, _, _.
  split; [ destruct (get _); reflexivity | ].
  cbn [Routes.south Routes.north Routes.west Routes.east].
  repeat (split; [ reflexivity | ]).
  repeat split; lra.
Qed.

Lemma download_bbox_contains_point_witness :
  exists params s n wst e,
    snd (Routes.download_dem "key" Samples.flat_cos
           (Samples.always Samples.clean) "abc"
           (Routes.DownloadRequest (Some (Fin 36)) (Some (Fin (-112)))
              None None None)
           Samples.empty_store)
    = [params] /\
    Routes.south params = Fin s /\ Routes.north params = Fin n /\
    Routes.west params = Fin wst /\ Routes.east params = Fin e /\
    (36 - s == 10 / 111)%Q /\ (n - 36 == 10 / 111)%Q /\
    (-112 - wst == 10 / (111 * 1))%Q /\
    (e - -112 == 10 / (111 * 1))%Q /\
    (s <= 36)%Q /\ (36 <= n)%Q /\ (wst <= -112)%Q /\ (-112 <= e)%Q.
Proof.
  apply (download_bbox_contains_point "key" Samples.flat_cos
           (Samples.always Samples.clean) "abc"
           (Routes.DownloadRequest (Some (Fin 36)) (Some (Fin (-112)))
              None None None)
           Samples.empty_store 36 (-112) 10 1).
  - reflexivity.
  - reflexivity.
  - reflexivity.
  - reflexivity.
  - vm_compute. discriminate.
  - reflexivity.
  - reflexivity.
Defined.
